(** * SkillScapes Analytics dashboard: a shallow embedding of the pages

    The dashboard is a Streamlit application: a home script [app.py] and six
    page scripts under [pages/].  Every script reads its widgets, issues HTTP
    requests through [requests.get], and draws what comes back.  The
    embedding has two layers.

    - The request layer runs each script in a small state-and-exception
      monad over a [world]: the backend (an oracle), the clock, the log of
      requests issued, the [st.cache_data] store and the widgets put on the
      screen.
    - The display layer gives the dataframe transformations of three tabs
      (monthly growth, the two heatmaps) as pure functions on decoded
      payloads; the growth is computed in float64.

    Third-party behaviour the scripts rely on (what [st.date_input] returns,
    how [st.cache_data] memoises, how [pd.DataFrame] is built from a nested
    list, what [Series.pct_change] computes) is written out next to the
    definition that embeds it. *)

From Stdlib Require Import ZArith QArith List String Ascii Bool Lia SpecFloat.
From stdpp Require Import gmap strings list.

Import ListNotations.
Local Open Scope string_scope.
Local Open Scope list_scope.
Local Open Scope Z_scope.

(** ** Python values *)

(** Exceptions the scripts can meet.  Every handler in the repository is
    either a bare [except:] or [except Exception], so all of them are caught
    alike.  [DuplicateError] is the one plotly's dataframe layer raises. *)
Inductive exn :=
| TypeError | KeyError | IndexError | ValueError | AttributeError
| JSONDecodeError | RequestException | Timeout | DuplicateError.

Inductive res (A : Type) :=
| Ok (a : A)
| Raise (e : exn).
Arguments Ok {A} a.
Arguments Raise {A} e.

Definition res_bind {A B} (r : res A) (k : A -> res B) : res B :=
  match r with
  | Ok a => k a
  | Raise e => Raise e
  end.

Notation "'let?' x := r 'in' k" := (res_bind r (fun x => k))
  (at level 10, x pattern, r at level 100, k at level 200).

(** A decoded JSON document; a dict keeps its items in insertion order and
    has every key once. *)
#[warnings="-register-all"]
Inductive json :=
| JNull
| JBool (b : bool)
| JNum (q : Q)
| JStr (s : string)
| JList (l : list json)
| JObj (items : list (string * json)).

Definition JInt (z : Z) : json := JNum (inject_Z z).

Fixpoint assoc {A} (k : string) (d : list (string * A)) : option A :=
  match d with
  | [] => None
  | (k', v) :: d' => if String.eqb k k' then Some v else assoc k d'
  end.

(** [d[k] = v]: a key already present keeps its place and takes the new
    value, a new key is appended. *)
Fixpoint dict_set {A} (k : string) (v : A) (d : list (string * A)) : list (string * A) :=
  match d with
  | [] => [(k, v)]
  | (k', v') :: d' =>
      if String.eqb k k' then (k', v) :: d' else (k', v') :: dict_set k v d'
  end.

(** [d.update(new)] *)
Definition dict_update {A} (d new : list (string * A)) : list (string * A) :=
  fold_left (fun acc kv => dict_set (fst kv) (snd kv) acc) new d.

(** [v[k]] with a string key. *)
Definition getitem (v : json) (k : string) : res json :=
  match v with
  | JObj items =>
      match assoc k items with
      | Some x => Ok x
      | None => Raise KeyError
      end
  | _ => Raise TypeError
  end.

(** [v.get(k, default)]: only a dict has the method. *)
Definition dict_get (v : json) (k : string) (default : json) : res json :=
  match v with
  | JObj items =>
      match assoc k items with
      | Some x => Ok x
      | None => Ok default
      end
  | _ => Raise AttributeError
  end.

(** [for item in v]: a list yields its elements, a dict its keys, a string
    its characters; nothing else is iterable. *)
Definition iterate (v : json) : res (list json) :=
  match v with
  | JList l => Ok l
  | JObj items => Ok (map (fun kv => JStr (fst kv)) items)
  | JStr s => Ok (map (fun c => JStr (String c EmptyString)) (list_ascii_of_string s))
  | _ => Raise TypeError
  end.

(** An f-string: literal text and replacement fields [{v:spec}]; a field
    with the empty spec is [str(v)]. *)
Inductive fpart :=
| Text (s : string)
| Hole (v : json) (spec : string).

Definition fstring := list fpart.

(** ** Dates and the date-range widget *)

Record date := { year : Z; month : Z; day : Z }.

(** A [datetime.date] has [1 <= year <= 9999]; the widget offers dates from
    ten years before its default, so four digits. *)
Definition valid_date (d : date) : Prop :=
  1000 <= year d <= 9999 /\ 1 <= month d <= 12 /\ 1 <= day d <= 31.

Definition digit (n : Z) : ascii := ascii_of_nat (48 + Z.to_nat (n mod 10)).

(** The [width] low decimal digits of [n], most significant first. *)
Fixpoint zero_padded (width : nat) (n : Z) : string :=
  match width with
  | O => EmptyString
  | S k => zero_padded k (n / 10) ++ String (digit n) EmptyString
  end.

(** [d.strftime("%Y-%m-%d")] *)
Definition strftime (d : date) : string :=
  zero_padded 4 (year d) ++ "-" ++ zero_padded 2 (month d) ++ "-" ++ zero_padded 2 (day d).

Arguments digit : simpl never.
Arguments strftime : simpl never.

(** What [st.date_input] hands back: a [datetime.date], or a tuple of
    dates. *)
Inductive date_value :=
| SingleDate (d : date)
| DateTuple (ds : list date).

(** [len(date_range)]: a [datetime.date] has no length. *)
Definition py_len (v : date_value) : res nat :=
  match v with
  | SingleDate _ => Raise TypeError
  | DateTuple ds => Ok (length ds)
  end.

(** [date_range[i]] *)
Definition py_index (v : date_value) (i : nat) : res date :=
  match v with
  | SingleDate _ => Raise TypeError
  | DateTuple ds =>
      match nth_error ds i with
      | Some d => Ok d
      | None => Raise IndexError
      end
  end.

(** The block every page script has right after its [date_input]:
<<
    if len(date_range) == 2:
        start_date = date_range[0].strftime("%Y-%m-%d")
        end_date = date_range[1].strftime("%Y-%m-%d")
    else:
        start_date = end_date = None
>> *)
Definition derive_dates (date_range : date_value) : res (option string * option string) :=
  let? n := py_len date_range in
  if Nat.eqb n 2 then
    let? d0 := py_index date_range 0 in
    let? d1 := py_index date_range 1 in
    Ok (Some (strftime d0), Some (strftime d1))
  else Ok (None, None).

(** The pages of the application. *)
Inductive page := Home | Jobs | Occupations | Regions | Skills | Heatmaps | JobTypes.

(** The [value] argument of a date input: a single date, or a pair (the
    pairs of the scripts end today and are only the first content of the
    picker, so they are not kept). *)
Inductive date_input_value :=
| SingleValue (d : date)
| RangeValue.

(** ** HTTP and the world a script runs in *)

Inductive http_method := GET | POST | PUT | PATCH | DELETE | HEAD | OPTIONS.

(** A call of the [requests] library: the URL is the f-string the script
    builds, [params] the dict it passes. *)
Record request := {
  method : http_method;
  url : fstring;
  params : list (string * json);
  timeout : option Z
}.

(** A response: [body] is [None] when [response.json()] cannot decode it. *)
Record response := {
  status_code : Z;
  body : option json
}.

Definition response_json (r : response) : res json :=
  match body r with
  | Some j => Ok j
  | None => Raise JSONDecodeError
  end.

(** The backend is an external collaborator: an oracle that answers the
    [n]-th request of the session, or makes the call raise (connection
    refused, timed out, ...). *)
Inductive outcome :=
| Raises (e : exn)
| Responds (r : response).

Definition backend := nat -> request -> outcome.

(** What a script puts on the screen, as far as the development looks at
    it: the input widgets, the home page's metrics and connection badge, and
    the error boxes of the handlers.  A date input is kept with the [value]
    it was given, which makes it a range picker or a single-date picker. *)
Inductive element :=
| DateInput (sidebar : bool) (label : string) (value : date_input_value)
| Selectbox (sidebar : bool) (label : string) (options : list json)
| TextInput (sidebar : bool) (label : string) (value : string)
| Slider (label : string) (lo hi default : Z)
| Radio (sidebar : bool) (label : string) (options : list string)
| Checkbox (label : string) (default : bool)
| Success (msg : string)
| Failure (msg : string)
| Metric (label : string) (value : fstring)
| ErrorBox (e : exn).

(** The state of the widgets as the user left them (Streamlit keeps it per
    browser session and hands it to the script on every rerun); [picked] is
    the dates in the date picker. *)
Record session := {
  picked : list date;
  slider_value : string -> option Z;
  radio_choice : string -> nat;
  select_choice : string -> nat;
  text_value : string -> option string;
  checkbox_value : string -> option bool
}.

(** An entry of the [st.cache_data] store: the memoised return value (a
    list, or Python's [None]) and the time it expires. *)
Record cache_entry := {
  cached_value : option (list json);
  expires : Z
}.

(** The store is keyed by the decorated function and its arguments.  How
    Streamlit names a function object is its own business: [function_key]
    takes the script and the function's name and is left open. *)
Record world := {
  server : backend;
  clock : Z;
  environ : string -> option string;
  function_key : page -> string -> string;
  draws : string -> response -> res bool;
  log : list request;
  cache : gmap (string * list string) cache_entry;
  screen : list element
}.

Definition with_log (w : world) (l : list request) : world :=
  {| server := server w; clock := clock w; environ := environ w; function_key := function_key w;
     draws := draws w; log := l; cache := cache w; screen := screen w |}.

Definition with_cache (w : world) (c : gmap (string * list string) cache_entry) : world :=
  {| server := server w; clock := clock w; environ := environ w; function_key := function_key w;
     draws := draws w; log := log w; cache := c; screen := screen w |}.

Definition with_screen (w : world) (s : list element) : world :=
  {| server := server w; clock := clock w; environ := environ w; function_key := function_key w;
     draws := draws w; log := log w; cache := cache w; screen := s |}.

(** A script fragment: it ends normally or raises, and leaves a world. *)
Definition M (A : Type) : Type := world -> res A * world.

Definition ret {A} (a : A) : M A := fun w => (Ok a, w).

Definition raise {A} (e : exn) : M A := fun w => (Raise e, w).

Definition bind {A B} (m : M A) (k : A -> M B) : M B :=
  fun w =>
    match m w with
    | (Ok a, w') => k a w'
    | (Raise e, w') => (Raise e, w')
    end.

Notation "x <- m ;; k" := (bind m (fun x => k))
  (at level 100, m at next level, right associativity).
Notation "m ;;; k" := (bind m (fun _ => k))
  (at level 100, right associativity).

Definition lift {A} (r : res A) : M A := fun w => (r, w).

(** [try: body except ...: handler] *)
Definition try_except {A} (body : M A) (handler : exn -> M A) : M A :=
  fun w =>
    match body w with
    | (Ok a, w') => (Ok a, w')
    | (Raise e, w') => handler e w'
    end.

(** [requests.get(url, params=params, timeout=timeout)] *)
Definition requests_get (u : fstring) (ps : list (string * json)) (t : option Z) : M response :=
  fun w =>
    let r := {| method := GET; url := u; params := ps; timeout := t |} in
    let w' := with_log w (log w ++ [r]) in
    match server w (length (log w)) r with
    | Raises e => (Raise e, w')
    | Responds resp => (Ok resp, w')
    end.

Definition show (e : element) : M unit :=
  fun w => (Ok tt, with_screen w (screen w ++ [e])).

(** [except Exception as e: st.error(f"Error: {e}")] *)
Definition st_error (e : exn) : M unit := show (ErrorBox e).

(** What a tab draws from a response is the business of pandas and plotly;
    the oracle [draws] of the world stands for it.  It answers whether the
    tab found a non-empty table to draw, or raises as the libraries would. *)
Definition draw (tab : string) (r : response) : M bool :=
  fun w => (draws w tab r, w).

(** [@st.cache_data(ttl=...)] around a function of the script [p]: a live
    entry is returned without running the function; otherwise the function
    runs and what it returns is stored until [ttl] seconds from now. *)
Definition cache_data (ttl : Z) (p : page) (name : string) (args : list string)
    (f : M (option (list json))) : M (option (list json)) :=
  fun w =>
    let k := (function_key w p name, args) in
    let compute :=
      match f w with
      | (Ok v, w') =>
          (Ok v, with_cache w' (<[k := {| cached_value := v; expires := clock w' + ttl |}]> (cache w')))
      | (Raise e, w') => (Raise e, w')
      end in
    match cache w !! k with
    | Some entry => if (clock w <? expires entry)%Z then (Ok (cached_value entry), w) else compute
    | None => compute
    end.

(** *** Widgets *)

(** [st.sidebar.date_input(label, value=value, ...)].  Streamlit decides by
    [value]: a single date or datetime makes a single-date picker, which
    returns a [datetime.date]; a list or tuple makes a range picker, which
    returns a tuple of the zero, one or two dates picked so far. *)
Definition date_input_returns (s : session) (value : date_input_value) : date_value :=
  match value with
  | SingleValue d => SingleDate (hd d (picked s))
  | RangeValue => DateTuple (take 2 (picked s))
  end.

Definition st_sidebar_date_input (s : session) (label : string)
    (value : date_input_value) : M date_value :=
  show (DateInput true label value) ;;; ret (date_input_returns s value).

Definition st_slider (s : session) (label : string) (lo hi default : Z) (key : string) : M Z :=
  show (Slider label lo hi default) ;;;
  ret (match slider_value s key with Some v => v | None => default end).

(** A radio or a selectbox returns the option chosen, the first one when
    nothing was chosen yet. *)
Definition st_radio (s : session) (sidebar : bool) (label : string)
    (options : list string) (key : string) : M string :=
  show (Radio sidebar label options) ;;;
  ret (nth (radio_choice s key) options (hd "" options)).

Definition st_selectbox (s : session) (sidebar : bool) (label : string)
    (options : list json) (key : string) : M json :=
  show (Selectbox sidebar label options) ;;;
  ret (nth (select_choice s key) options (hd JNull options)).

Definition st_text_input (s : session) (sidebar : bool) (label : string) (value : string) : M json :=
  show (TextInput sidebar label value) ;;;
  ret (JStr (match text_value s label with Some t => t | None => value end)).

Definition st_checkbox (s : session) (label : string) (value : bool) : M bool :=
  show (Checkbox label value) ;;;
  ret (match checkbox_value s label with Some b => b | None => value end).

(** ** Pieces the page scripts share *)

(** [os.getenv(name, default)] *)
Definition os_getenv (name default : string) : M string :=
  fun w => (Ok (match environ w name with Some v => v | None => default end), w).

(** [API_BASE_URL = os.getenv("API_BASE_URL", "http://localhost:8000")] *)
Definition API_BASE_URL : M string := os_getenv "API_BASE_URL" "http://localhost:8000".

(** [f"{API_BASE_URL}<path>"] *)
Definition endpoint (base path : string) : fstring := [Hole (JStr base) ""; Text path].

(** [f"{API_BASE_URL}<before>{v}<after>"] *)
Definition endpoint_of (base before : string) (v : json) (after : string) : fstring :=
  [Hole (JStr base) ""; Text before; Hole v ""; Text after].

(** [if start_date and end_date:] *)
Definition str_truthy (o : option string) : bool :=
  match o with
  | Some s => negb (String.eqb s "")
  | None => false
  end.

Definition str_json (o : option string) : json :=
  match o with
  | Some s => JStr s
  | None => JNull
  end.

(** [if start_date and end_date: params.update({"start_date": start_date,
    "end_date": end_date})] *)
Definition with_dates (start_date end_date : option string)
    (ps : list (string * json)) : list (string * json) :=
  if str_truthy start_date && str_truthy end_date then
    dict_update ps [("start_date", str_json start_date); ("end_date", str_json end_date)]
  else ps.

(** [level_param = "nuts2" if region_level == "NUTS2" else "regional_unit"] *)
Definition level_of (region_level : string) : string :=
  if String.eqb region_level "NUTS2" then "nuts2" else "regional_unit".

Fixpoint map_res {A B} (f : A -> res B) (l : list A) : res (list B) :=
  match l with
  | [] => Ok []
  | x :: l' =>
      let? y := f x in
      let? ys := map_res f l' in
      Ok (y :: ys)
  end.

(** [[item[key] for item in data['data']]] *)
Definition labels_of (data : json) (key : string) : res (list json) :=
  let? rows := getitem data "data" in
  let? items := iterate rows in
  map_res (fun item => getitem item key) items.

(** The body of [get_occupations], the same on the four pages that define
    it (Occupations, Skills, Heatmaps, Job Types):
<<
    try:
        response = requests.get(f"{API_BASE_URL}/api/occupations/demand", params={"top_n": 200})
        if response.status_code == 200:
            data = response.json()
            return [item['esco_label'] for item in data['data']]
    except:
        return []
>>
    Falling off the end of the [if] returns [None]. *)
Definition get_occupations_body (base : string) : M (option (list json)) :=
  try_except
    (response <- requests_get (endpoint base "/api/occupations/demand") [("top_n", JInt 200)] None ;;
     if status_code response =? 200 then
       data <- lift (response_json response) ;;
       labels <- lift (labels_of data "esco_label") ;;
       ret (Some labels)
     else ret None)
    (fun _ => ret (Some [])).

(** The body of [get_regions(level)] (Regions and Skills pages). *)
Definition get_regions_body (base level : string) : M (option (list json)) :=
  try_except
    (response <- requests_get (endpoint base "/api/regions/jobs")
                   [("region_level", JStr level); ("top_n", JInt 100)] None ;;
     if status_code response =? 200 then
       data <- lift (response_json response) ;;
       labels <- lift (labels_of data "region") ;;
       ret (Some labels)
     else ret None)
    (fun _ => ret (Some [])).

(** The decorated functions, [@st.cache_data(ttl=3600)]. *)
Definition get_occupations (p : page) (base : string) : M (option (list json)) :=
  cache_data 3600 p "get_occupations" [] (get_occupations_body base).

Definition get_regions (p : page) (base level : string) : M (option (list json)) :=
  cache_data 3600 p "get_regions" [level] (get_regions_body base level).

(** [if occupations:] on what a lookup returned. *)
Definition lookup_truthy (l : option (list json)) : bool :=
  match l with
  | Some (_ :: _) => true
  | _ => false
  end.

Definition options_of (l : option (list json)) : list json :=
  match l with
  | Some o => o
  | None => []
  end.

(** The choice every page makes after a lookup:
<<
    if occupations:
        selected = st.selectbox(label, options=occupations, index=0)
    else:
        selected = st.text_input(fallback_label, value=fallback)
>> *)
Definition select_or_type (s : session) (sidebar : bool) (l : option (list json))
    (label key fallback_label fallback : string) : M json :=
  if lookup_truthy l then st_selectbox s sidebar label (options_of l) key
  else st_text_input s sidebar fallback_label fallback.

(** What that choice returns: the option picked, or the text typed (the
    fallback when nothing was typed). *)
Definition chosen (s : session) (l : option (list json))
    (key fallback_label fallback : string) : json :=
  if lookup_truthy l then
    nth (select_choice s key) (options_of l) (hd JNull (options_of l))
  else
    JStr (match text_value s fallback_label with Some t => t | None => fallback end).

(** A tab's fetch-and-draw block:
<<
    try:
        response = requests.get(url, params=params)
        if response.status_code == 200:
            ... build the dataframe, draw ...
    except Exception as e:
        st.error(f"Error: {e}")
>> *)
Definition fetch_and_draw (tab : string) (u : fstring) (ps : list (string * json)) : M unit :=
  try_except
    (response <- requests_get u ps None ;;
     if status_code response =? 200 then
       _ <- draw tab response ;; ret tt
     else ret tt)
    st_error.

(** ** The home page, [app.py] *)

(** [f"{v:,}"]: the thousands separator is for numbers ([bool] is one); a
    [str] gives [ValueError], anything else [TypeError]. *)
Definition format_thousands (v : json) : res fpart :=
  match v with
  | JNum _ | JBool _ => Ok (Hole v ",")
  | JStr _ => Raise ValueError
  | _ => Raise TypeError
  end.

Definition health_url (base : string) : fstring := endpoint base "/health".

(**
<<
def check_api_connection():
    try:
        response = requests.get(f"{API_BASE_URL}/health", timeout=5)
        return response.status_code == 200
    except:
        return False
>> *)
Definition check_api_connection (base : string) : M bool :=
  try_except
    (response <- requests_get (health_url base) [] (Some 5) ;;
     ret (status_code response =? 200))
    (fun _ => ret false).

(** One quick-stats metric: the request, and on a 200 the number under
    [key] (0 when absent) formatted with separators and put in a column. *)
Definition quick_stat (u : fstring) (ps : list (string * json))
    (label key : string) (suffix : list fpart) : M unit :=
  response <- requests_get u ps None ;;
  if status_code response =? 200 then
    data <- lift (response_json response) ;;
    v <- lift (dict_get data key (JInt 0)) ;;
    shown <- lift (format_thousands v) ;;
    show (Metric label (shown :: suffix))
  else ret tt.

(** The four requests share one [try]; its handler is [except: pass]. *)
Definition quick_stats (base : string) : M unit :=
  try_except
    (quick_stat (endpoint base "/api/jobs/count") [] "Total Jobs" "total_jobs" [] ;;;
     quick_stat (endpoint base "/api/occupations/demand") [("top_n", JInt 100)]
       "Occupations Tracked" "count" [] ;;;
     quick_stat (endpoint base "/api/regions/jobs")
       [("region_level", JStr "nuts2"); ("top_n", JInt 100)] "Regions (NUTS2)" "count" [] ;;;
     quick_stat (endpoint base "/api/skills/top") [("top_n", JInt 100)]
       "Skills Tracked" "count" [Text "+"])
    (fun _ => ret tt).

Definition Home_page : M unit :=
  base <- API_BASE_URL ;;
  connected <- check_api_connection base ;;
  (if connected then show (Success "✅ Connected") else show (Failure "❌ Disconnected")) ;;;
  connected <- check_api_connection base ;;
  if connected then quick_stats base else ret tt.

(** ** [pages/1_Jobs.py] *)

Definition Jobs_page (s : session) : M unit :=
  base <- API_BASE_URL ;;
  date_range <- st_sidebar_date_input s "Date Range" RangeValue ;;
  dates <- lift (derive_dates date_range) ;;
  let start_date := fst dates in
  let end_date := snd dates in
  (* tab 1: overview *)
  fetch_and_draw "jobs/count" (endpoint base "/api/jobs/count")
    (with_dates start_date end_date []) ;;;
  top_n <- st_slider s "Number of occupations to show" 10 50 20 "top_occ" ;;
  fetch_and_draw "jobs/occupations" (endpoint base "/api/occupations/demand")
    (with_dates start_date end_date [("top_n", JInt top_n)]) ;;;
  (* tab 2: time series *)
  fetch_and_draw "jobs/timeseries" (endpoint base "/api/jobs/timeseries")
    (with_dates start_date end_date []) ;;;
  (* tab 3: monthly trends *)
  fetch_and_draw "jobs/monthly" (endpoint base "/api/trends/monthly")
    (with_dates start_date end_date []).

(** ** [pages/2_Occupations.py] *)

Definition region_levels : list string := ["NUTS2"; "Regional Unit"].

(** The time-series tab: the monthly request sits inside the branch that
    drew a non-empty daily table, in a [try] of its own with [except: pass],
    and reuses [params]. *)
Definition occupation_trend (base : string) (selected_occupation : json)
    (ps : list (string * json)) : M unit :=
  try_except
    (response <- requests_get (endpoint base "/api/occupations/timeseries") ps None ;;
     if status_code response =? 200 then
       drawn <- draw "occupations/timeseries" response ;;
       if drawn : bool then
         try_except
           (response_monthly <-
              requests_get
                (endpoint_of base "/api/trends/monthly/occupations/" selected_occupation "")
                ps None ;;
            if status_code response_monthly =? 200 then
              _ <- draw "occupations/monthly" response_monthly ;; ret tt
            else ret tt)
           (fun _ => ret tt)
       else ret tt
     else ret tt)
    st_error.

Definition Occupations_page (s : session) : M unit :=
  base <- API_BASE_URL ;;
  occupations <- get_occupations Occupations base ;;
  selected_occupation <-
    select_or_type s true occupations "Select Occupation" "Select Occupation"
      "Enter Occupation" "Software Developer" ;;
  date_range <- st_sidebar_date_input s "Date Range" RangeValue ;;
  dates <- lift (derive_dates date_range) ;;
  let start_date := fst dates in
  let end_date := snd dates in
  (* tab 1: overview *)
  region_level <- st_radio s false "Region Level" region_levels "overview_level" ;;
  fetch_and_draw "occupations/regions" (endpoint base "/api/occupations/regions")
    (with_dates start_date end_date
       [("esco_label", selected_occupation); ("region_level", JStr (level_of region_level));
        ("top_n", JInt 15)]) ;;;
  (* tab 2: time series *)
  occupation_trend base selected_occupation
    (with_dates start_date end_date [("esco_label", selected_occupation)]) ;;;
  (* tab 3: regional analysis *)
  region_level_detail <- st_radio s false "Region Level" region_levels "detail_level" ;;
  top_n <- st_slider s "Top N Regions" 5 30 15 "top_regions" ;;
  fetch_and_draw "occupations/regions-detail" (endpoint base "/api/occupations/regions")
    (with_dates start_date end_date
       [("esco_label", selected_occupation);
        ("region_level", JStr (level_of region_level_detail)); ("top_n", JInt top_n)]) ;;;
  (* tab 4: skills *)
  top_n_skills <- st_slider s "Number of skills to show" 10 50 20 "top_skills" ;;
  fetch_and_draw "occupations/skills" (endpoint base "/api/skills/by-occupation/detailed")
    (with_dates start_date end_date
       [("esco_label", selected_occupation); ("top_n", JInt top_n_skills)]).

(** ** [pages/3_Regions.py] *)

Definition Regions_page (s : session) : M unit :=
  base <- API_BASE_URL ;;
  region_level <- st_radio s true "Region Level" region_levels "Region Level" ;;
  let level_param := level_of region_level in
  regions <- get_regions Regions base level_param ;;
  selected_region <-
    select_or_type s true regions "Select Region" "Select Region" "Enter Region" "Attiki" ;;
  date_range <- st_sidebar_date_input s "Date Range" RangeValue ;;
  dates <- lift (derive_dates date_range) ;;
  let start_date := fst dates in
  let end_date := snd dates in
  (* tab 1: overview *)
  top_n_regions <- st_slider s "Number of regions to compare" 5 30 15 "compare_regions" ;;
  fetch_and_draw "regions/jobs" (endpoint base "/api/regions/jobs")
    (with_dates start_date end_date
       [("region_level", JStr level_param); ("top_n", JInt top_n_regions)]) ;;;
  fetch_and_draw "regions/jobtypes"
    (endpoint_of base "/api/regions/" selected_region "/jobtypes/categories")
    (with_dates start_date end_date [("region_level", JStr level_param)]) ;;;
  (* tab 2: occupations *)
  top_n_occ <- st_slider s "Number of occupations" 10 50 20 "top_occ_region" ;;
  fetch_and_draw "regions/occupations"
    (endpoint_of base "/api/regions/" selected_region "/occupations")
    (with_dates start_date end_date
       [("region_level", JStr level_param); ("top_n", JInt top_n_occ)]) ;;;
  (* tab 3: time series *)
  fetch_and_draw "regions/timeseries"
    (endpoint_of base "/api/regions/" selected_region "/timeseries")
    (with_dates start_date end_date [("region_level", JStr level_param)]) ;;;
  (* tab 4: skills *)
  top_n_skills <- st_slider s "Number of skills" 10 50 20 "top_skills_region" ;;
  fetch_and_draw "regions/skills" (endpoint base "/api/skills/by-region")
    (with_dates start_date end_date
       [("region", selected_region); ("region_level", JStr level_param);
        ("top_n", JInt top_n_skills)]).

(** ** [pages/4_Skills.py] *)

Definition Skills_page (s : session) : M unit :=
  base <- API_BASE_URL ;;
  date_range <- st_sidebar_date_input s "Date Range" RangeValue ;;
  dates <- lift (derive_dates date_range) ;;
  let start_date := fst dates in
  let end_date := snd dates in
  (* tab 1: top skills *)
  top_n <- st_slider s "Number of skills to show" 10 100 30 "top_skills_overall" ;;
  fetch_and_draw "skills/top" (endpoint base "/api/skills/top")
    (with_dates start_date end_date [("top_n", JInt top_n)]) ;;;
  (* tab 2: skills by occupation *)
  occupations <- get_occupations Skills base ;;
  occupation <-
    select_or_type s false occupations "Select Occupation" "Select Occupation"
      "Enter Occupation" "Software Developer" ;;
  top_n_occ_skills <- st_slider s "Number of skills to show" 10 50 20 "skills_by_occ" ;;
  fetch_and_draw "skills/by-occupation" (endpoint base "/api/skills/by-occupation/detailed")
    (with_dates start_date end_date
       [("esco_label", occupation); ("top_n", JInt top_n_occ_skills)]) ;;;
  (* tab 3: skills by region *)
  region_level_skills <- st_radio s false "Region Level" region_levels "Region Level" ;;
  let level_param_skills := level_of region_level_skills in
  regions <- get_regions Skills base level_param_skills ;;
  region_skills <-
    select_or_type s false regions "Select Region" "Select Region" "Enter Region" "Attiki" ;;
  top_n_region_skills <- st_slider s "Number of skills" 10 50 20 "skills_by_region" ;;
  fetch_and_draw "skills/by-region" (endpoint base "/api/skills/by-region")
    (with_dates start_date end_date
       [("region", region_skills); ("region_level", JStr level_param_skills);
        ("top_n", JInt top_n_region_skills)]).

(** ** [pages/5_Heatmaps.py] *)

(** The query of the Skills x Regions tab. *)
Definition skills_heatmap_params (occupation : json) (level_param_skills : string)
    (top_n_skills top_n_regions : Z) (normalize : bool)
    (start_date end_date : option string) : list (string * json) :=
  with_dates start_date end_date
    [("esco_label", occupation); ("region_level", JStr level_param_skills);
     ("top_n_skills", JInt top_n_skills); ("top_n_regions", JInt top_n_regions);
     ("normalize", JBool normalize)].

Definition Heatmaps_page (s : session) : M unit :=
  base <- API_BASE_URL ;;
  date_range <- st_sidebar_date_input s "Date Range" RangeValue ;;
  dates <- lift (derive_dates date_range) ;;
  let start_date := fst dates in
  let end_date := snd dates in
  (* tab 1: occupations x regions *)
  region_level <- st_radio s false "Region Level" region_levels "occ_region_level" ;;
  top_n_occ <- st_slider s "Top N Occupations" 5 30 15 "top_occ_heatmap" ;;
  top_n_reg <- st_slider s "Top N Regions" 5 20 10 "top_reg_heatmap" ;;
  fetch_and_draw "heatmaps/occupations-regions"
    (endpoint base "/api/heatmap/occupations-regions")
    (with_dates start_date end_date
       [("region_level", JStr (level_of region_level));
        ("top_n_occupations", JInt top_n_occ); ("top_n_regions", JInt top_n_reg)]) ;;;
  (* tab 2: skills x regions for an occupation *)
  occupations <- get_occupations Heatmaps base ;;
  occupation <-
    select_or_type s false occupations "Select Occupation" "heatmap_occupation"
      "Enter Occupation" "Software Developer" ;;
  region_level_skills <- st_radio s false "Region Level" region_levels "skills_region_level" ;;
  top_n_skills <- st_slider s "Top N Skills" 10 50 20 "top_skills_heatmap" ;;
  top_n_regions <- st_slider s "Top N Regions" 5 20 10 "top_regions_heatmap" ;;
  normalize <- st_checkbox s "Normalize (% per region)" false ;;
  fetch_and_draw "heatmaps/skills-regions"
    (endpoint base "/api/heatmap/skills-regions-occupation")
    (skills_heatmap_params occupation (level_of region_level_skills)
       top_n_skills top_n_regions normalize start_date end_date).

(** ** [pages/6_Job_Types.py] *)

Definition json_str_eqb (v : json) (s : string) : bool :=
  match v with
  | JStr t => String.eqb t s
  | _ => false
  end.

(**
<<
    category_param = None
    if category_filter == "Full-time/Part-time":
        category_param = "fulltime"
    elif category_filter == "Temporary/Permanent":
        category_param = "temporary"
>> *)
Definition category_param_of (category_filter : json) : option string :=
  if json_str_eqb category_filter "Full-time/Part-time" then Some "fulltime"
  else if json_str_eqb category_filter "Temporary/Permanent" then Some "temporary"
  else None.

(** [if category_param: params['category'] = category_param] *)
Definition with_category (category_param : option string)
    (ps : list (string * json)) : list (string * json) :=
  if str_truthy category_param then dict_set "category" (str_json category_param) ps else ps.

Definition JobTypes_page (s : session) : M unit :=
  base <- API_BASE_URL ;;
  date_range <-
    st_sidebar_date_input s "Date Range" (SingleValue {| year := 2025; month := 5; day := 1 |}) ;;
  dates <- lift (derive_dates date_range) ;;
  let start_date := fst dates in
  let end_date := snd dates in
  (* tab 1: distribution *)
  category_filter <-
    st_selectbox s false "Filter by Category"
      [JStr "All Types"; JStr "Full-time/Part-time"; JStr "Temporary/Permanent"]
      "dist_category" ;;
  fetch_and_draw "jobtypes/distribution" (endpoint base "/api/jobtypes/distribution")
    (with_category (category_param_of category_filter) (with_dates start_date end_date [])) ;;;
  (* tab 2: categories *)
  fetch_and_draw "jobtypes/categories" (endpoint base "/api/jobtypes/categories")
    (with_dates start_date end_date []) ;;;
  (* tab 3: by occupation *)
  occupations <- get_occupations JobTypes base ;;
  occupation_jt <-
    select_or_type s false occupations "Select Occupation" "jt_occupation"
      "Enter Occupation" "Software Developer" ;;
  fetch_and_draw "jobtypes/by-occupation" (endpoint base "/api/occupations/jobtypes/categories")
    (with_dates start_date end_date [("esco_label", occupation_jt)]).

(** ** Running a page *)

Definition script (p : page) (s : session) : M unit :=
  match p with
  | Home => Home_page
  | Jobs => Jobs_page s
  | Occupations => Occupations_page s
  | Regions => Regions_page s
  | Skills => Skills_page s
  | Heatmaps => Heatmaps_page s
  | JobTypes => JobTypes_page s
  end.

(** One run of a script: what it leaves behind, and the requests it added
    to the log. *)
Definition run (p : page) (s : session) (w : world) : world := snd (script p s w).

Definition requests_of (p : page) (s : session) (w : world) : list request :=
  drop (length (log w)) (log (run p s w)).

(** ** The display layer: numbers and frames *)

(** A float64 as numpy holds it: IEEE 754 binary64, every operation rounded
    to the nearest representable value, ties to even.  The arithmetic is
    the standard library's specification of floating-point numbers at
    precision 53 and maximal exponent 1024. *)
Definition float64 : Type := spec_float.

Definition f64_div : float64 -> float64 -> float64 := SFdiv 53 1024.
Definition f64_sub : float64 -> float64 -> float64 := SFsub 53 1024.
Definition f64_mul : float64 -> float64 -> float64 := SFmul 53 1024.

(** The float64 nearest to an integer. *)
Definition f64_of_int (n : Z) : float64 := binary_normalize 53 1024 n 0 false.

(** The rational a finite float64 stands for. *)
Definition f64_value (x : float64) : option Q :=
  match x with
  | S754_zero _ => Some 0%Q
  | S754_finite s m e => Some ((if s then -1 else 1) * inject_Z (Z.pos m) * Qpower 2 e)%Q
  | _ => None
  end.

(** A number in a decoded payload as Python holds it: an [int] of any
    size, a [float], or [None] for a JSON [null]. *)
Inductive pynum :=
| PyInt (n : Z)
| PyFloat (x : float64)
| PyNone.

(** The value a float64 column holds for it; a missing value is NaN. *)
Definition to_float64 (v : pynum) : float64 :=
  match v with
  | PyInt n => f64_of_int n
  | PyFloat x => x
  | PyNone => S754_nan
  end.

(** The numbers pandas keeps in a numeric column without missing values
    (int64 when all are integers, float64 otherwise): integers of the int64
    range and floats other than NaN. *)
Definition in_column (v : pynum) : Prop :=
  match v with
  | PyInt n => - 2 ^ 63 <= n < 2 ^ 63
  | PyFloat x => x <> S754_nan /\ valid_binary 53 1024 x = true
  | PyNone => False
  end.



(** [s.shift(1)]: every value moves one row down, the first row is NaN. *)
Definition shift (xs : list float64) : list float64 := take (length xs) (S754_nan :: xs).

(** [s.pct_change()] on a column without missing values: pandas computes
    [s / s.shift(1) - 1] in float64. *)
Definition pct_change (xs : list float64) : list float64 :=
  zip_with (fun cur prev => f64_sub (f64_div cur prev) (f64_of_int 1)) xs (shift xs).

(** *** The Monthly Trends tab of the Jobs page *)

(** The rows of [/api/trends/monthly]: a month and its job count. *)
Record monthly_row := { month_of : string; total_jobs : pynum }.

Inductive chart :=
| BarChart (title : string) (x : list string) (y : list pynum)
| LineChart (title : string) (x : list string) (y : list float64) (hline : Q).

(** [df['mom_change'] = df['total_jobs'].pct_change() * 100] *)
Definition mom_change (df : list monthly_row) : list float64 :=
  map (fun v => f64_mul v (f64_of_int 100))
    (pct_change (map (fun r => to_float64 (total_jobs r)) df)).

(**
<<
    if not df.empty:
        fig = px.bar(df, x='month', y='total_jobs', ...)
        if len(df) > 1:
            df['mom_change'] = df['total_jobs'].pct_change() * 100
            fig2 = px.line(df[1:], x='month', y='mom_change', ...)
            fig2.add_hline(y=0, ...)
>> *)
Definition monthly_trends (df : list monthly_row) : list chart :=
  match df with
  | [] => []
  | _ =>
      let fig := BarChart "Monthly Job Postings" (map month_of df) (map total_jobs df) in
      if (1 <? length df)%nat then
        let with_change := zip df (mom_change df) in
        let tail := drop 1 with_change in
        [fig; LineChart "Month-over-Month Growth Rate (%)"
                (map (fun r => month_of (fst r)) tail) (map snd tail) 0]
      else [fig]
  end.

(** The growth rate as the specification words it,
    [(total_jobs[i] - total_jobs[i-1]) / total_jobs[i-1] * 100], in exact
    arithmetic. *)
Definition growth_rate (cur prev : Q) : Q := ((cur - prev) / prev * 100)%Q.

(** The same formula evaluated in float64, operation by operation. *)
Definition growth_rate_float64 (cur prev : float64) : float64 :=
  f64_mul (f64_div (f64_sub cur prev) prev) (f64_of_int 100).

(** What [pct_change] computes, [(cur / prev - 1) * 100], in exact
    arithmetic. *)
Definition pct_change_rate (cur prev : Q) : Q := ((cur / prev - 1) * 100)%Q.

(** *** Frames and heatmaps *)

(** A cell of a frame: a number of the payload, or NaN where there is none. *)
Inductive fnum :=
| Finite (q : Q)
| NaN.

Record frame := {
  index : list string;
  columns : list string;
  values : list (list fnum)
}.

Definition pad_row (width : nat) (row : list Q) : list fnum :=
  map Finite row ++ replicate (width - length row) NaN.

(** The columns of the frame are cut out of the padded rows and fitted to
    the index one by one: a column of one value, which is what a single row
    gives, is repeated down the index whatever its length; a column of any
    other length than the index's raises. *)
Definition fit_rows (data : list (list Q)) (width rows : nat) : res (list (list fnum)) :=
  match data with
  | [row] => Ok (replicate rows (pad_row width row))
  | _ =>
      if negb (length data =? rows)%nat then Raise ValueError
      else Ok (map (pad_row width) data)
  end.

(** [pd.DataFrame(data, index=index, columns=columns)] for a list of lists
    of numbers.  An empty list gives a frame of NaN over the labels.
    Otherwise the rows are padded with NaN to the longest one; a width
    other than the number of column labels raises; rows without a cell give
    a frame without columns; else the columns are fitted to the index. *)
Definition DataFrame (data : list (list Q)) (idx cols : list string) : res frame :=
  match data with
  | [] =>
      Ok {| index := idx; columns := cols;
            values := replicate (length idx) (replicate (length cols) NaN) |}
  | _ =>
      let width := max_list (map length data) in
      if negb (width =? length cols)%nat then Raise ValueError
      else if (width =? 0)%nat then
        Ok {| index := idx; columns := cols; values := replicate (length idx) [] |}
      else
        let? rows := fit_rows data width (length idx) in
        Ok {| index := idx; columns := cols; values := rows |}
  end.

(** No label twice. *)
Fixpoint distinct (l : list string) : bool :=
  match l with
  | [] => true
  | x :: l' => negb (existsb (String.eqb x) l') && distinct l'
  end.

(** [px.imshow(df, ...)]: plotly reads the frame through its dataframe
    layer, which refuses a frame with a column label that occurs twice;
    the image is the frame's values, row by row. *)
Definition px_imshow (df : frame) : res (list (list fnum)) :=
  if distinct (columns df) then Ok (values df) else Raise DuplicateError.

Inductive text_auto_arg := AutoTrue | AutoFormat (spec : string).

(** The figure [px.imshow] is asked for, with the title set afterwards. *)
Record heatmap := {
  z : list (list fnum);
  x_labels : list string;
  y_labels : list string;
  axis_x : string;
  axis_y : string;
  color_label : string;
  text_auto : option text_auto_arg;
  title : fstring
}.

Definition cell (h : heatmap) (i j : nat) : option fnum :=
  match z h !! i with
  | Some row => row !! j
  | None => None
  end.

(** The payload of [/api/heatmap/occupations-regions], a key being [None]
    when the response lacks it. *)
Record occupations_regions := {
  or_matrix : option (list (list Q));
  or_occupations : option (list string);
  or_regions : option (list string)
}.

(**
<<
    if 'matrix' in data and 'occupations' in data and 'regions' in data:
        pivot_df = pd.DataFrame(matrix, index=occupations, columns=regions)
        fig = px.imshow(pivot_df,
                        labels=dict(x="Region", y="Occupation", color="Job Count"),
                        x=pivot_df.columns, y=pivot_df.index, ...)
        fig.update_layout(title="Occupations vs Regions Heatmap", ...)
>> *)
Definition occupations_regions_heatmap (data : occupations_regions) : res (option heatmap) :=
  match or_matrix data, or_occupations data, or_regions data with
  | Some matrix, Some occupations, Some regions =>
      let? pivot_df := DataFrame matrix occupations regions in
      let? img := px_imshow pivot_df in
      Ok (Some {| z := img;
                  x_labels := columns pivot_df; y_labels := index pivot_df;
                  axis_x := "Region"; axis_y := "Occupation"; color_label := "Job Count";
                  text_auto := None;
                  title := [Text "Occupations vs Regions Heatmap"] |})
  | _, _, _ => Ok None
  end.

(** The payload of [/api/heatmap/skills-regions-occupation]. *)
Record skills_regions := {
  sr_skills : option (list string);
  sr_regions : option (list string);
  sr_normalized_matrix : option (list (list Q));
  sr_matrix : option (list (list Q))
}.

Definition nonempty {A} (l : list A) : bool :=
  match l with
  | [] => false
  | _ => true
  end.

(** [data.get('normalized_matrix', data.get('matrix', []))] *)
Definition matrix_data_of (data : skills_regions) : list (list Q) :=
  match sr_normalized_matrix data with
  | Some m => m
  | None =>
      match sr_matrix data with
      | Some m => m
      | None => []
      end
  end.

(**
<<
    if 'skills' in data and 'regions' in data:
        matrix_data = data.get('normalized_matrix', data.get('matrix', []))
        if matrix_data and skills and regions:
            pivot_df = pd.DataFrame(matrix_data, index=skills, columns=regions)
            fig = px.imshow(pivot_df,
                            labels=dict(x="Region", y="Skill",
                                        color="Percentage" if normalize else "Frequency"),
                            x=pivot_df.columns, y=pivot_df.index, ...,
                            text_auto='.1f' if normalize else True)
            title = f"Skills × Regions: {occupation}"
            if normalize:
                title += " (Normalized %)"
>> *)
Definition skills_regions_heatmap (normalize : bool) (occupation : json)
    (data : skills_regions) : res (option heatmap) :=
  match sr_skills data, sr_regions data with
  | Some skills, Some regions =>
      let matrix_data := matrix_data_of data in
      if nonempty matrix_data && nonempty skills && nonempty regions then
        let? pivot_df := DataFrame matrix_data skills regions in
        let? img := px_imshow pivot_df in
        Ok (Some {| z := img;
                    x_labels := columns pivot_df; y_labels := index pivot_df;
                    axis_x := "Region"; axis_y := "Skill";
                    color_label := if normalize then "Percentage" else "Frequency";
                    text_auto := Some (if normalize then AutoFormat ".1f" else AutoTrue);
                    title := [Text "Skills × Regions: "; Hole occupation ""]
                             ++ (if normalize then [Text " (Normalized %)"] else []) |})
      else Ok None
  | _, _ => Ok None
  end.

(** ** Reading a formatted date back *)

Definition is_digit (c : ascii) : bool :=
  let n := nat_of_ascii c in (48 <=? n)%nat && (n <=? 57)%nat.

(** The number a string of decimal digits denotes. *)
Definition digits_value (s : string) : Z :=
  fold_left (fun acc c => 10 * acc + (Z.of_nat (nat_of_ascii c) - 48)) (list_ascii_of_string s) 0.

(** [YYYY-MM-DD]: ten characters, digits around two dashes. *)
Definition iso_date_shape (s : string) : bool :=
  match list_ascii_of_string s with
  | [y1; y2; y3; y4; d1; m1; m2; d2; a1; a2] =>
      forallb is_digit [y1; y2; y3; y4; m1; m2; a1; a2]
      && Ascii.eqb d1 "-" && Ascii.eqb d2 "-"
  | _ => false
  end.

(** ** What of a heatmap comes from the data *)


(** A matrix with one row per row label and one cell per column label. *)
Definition rectangular (m : list (list Q)) (rows cols : nat) : Prop :=
  length m = rows /\ Forall (fun row => length row = cols) m.

(** ** Statements about runs *)

(** The base URL a run reads from its environment. *)
Definition api_base (w : world) : string :=
  match environ w "API_BASE_URL" with
  | Some v => v
  | None => "http://localhost:8000"
  end.

(** The two lookup requests. *)
Definition occupations_lookup (base : string) : request :=
  {| method := GET; url := endpoint base "/api/occupations/demand";
     params := [("top_n", JInt 200)]; timeout := None |}.

Definition regions_lookup (base level : string) : request :=
  {| method := GET; url := endpoint base "/api/regions/jobs";
     params := [("region_level", JStr level); ("top_n", JInt 100)]; timeout := None |}.

Definition health_check (base : string) : request :=
  {| method := GET; url := health_url base; params := []; timeout := Some 5 |}.

(** The first request of the home page's quick stats. *)
Definition jobs_count_request (base : string) : request :=
  {| method := GET; url := endpoint base "/api/jobs/count"; params := []; timeout := None |}.

Definition is_lookup (base : string) (r : request) : Prop :=
  r = occupations_lookup base \/ exists level, r = regions_lookup base level.

(** What a lookup helper returns, by the outcome of its request: the labels
    on a 200, the empty list when the call raises, [None] on any other
    status.  A 200 whose body has no labels to read ends in the handler
    too. *)
Definition labels_result (key : string) (o : outcome) : option (list json) :=
  match o with
  | Raises _ => Some []
  | Responds r =>
      if status_code r =? 200 then
        match (let? data := response_json r in labels_of data key) with
        | Ok labels => Some labels
        | Raise _ => Some []
        end
      else None
  end.

(** The answer of a health check. *)
Definition healthy (o : outcome) : bool :=
  match o with
  | Raises _ => false
  | Responds r => status_code r =? 200
  end.

(** The endpoints of a page: a fixed path, or a path around the selected
    region or occupation. *)
Inductive template :=
| Fixed (path : string)
| Around (before after : string).

Definition instantiate (base : string) (selected : json) (t : template) : fstring :=
  match t with
  | Fixed path => endpoint base path
  | Around before after => endpoint_of base before selected after
  end.

Definition templates (p : page) : list template :=
  match p with
  | Home =>
      [Fixed "/health"; Fixed "/api/jobs/count"; Fixed "/api/occupations/demand";
       Fixed "/api/regions/jobs"; Fixed "/api/skills/top"]
  | Jobs =>
      [Fixed "/api/jobs/count"; Fixed "/api/occupations/demand";
       Fixed "/api/jobs/timeseries"; Fixed "/api/trends/monthly"]
  | Occupations =>
      [Fixed "/api/occupations/demand"; Fixed "/api/occupations/regions";
       Fixed "/api/occupations/timeseries"; Around "/api/trends/monthly/occupations/" "";
       Fixed "/api/skills/by-occupation/detailed"]
  | Regions =>
      [Fixed "/api/regions/jobs"; Around "/api/regions/" "/jobtypes/categories";
       Around "/api/regions/" "/occupations"; Around "/api/regions/" "/timeseries";
       Fixed "/api/skills/by-region"]
  | Skills =>
      [Fixed "/api/skills/top"; Fixed "/api/occupations/demand";
       Fixed "/api/skills/by-occupation/detailed"; Fixed "/api/regions/jobs";
       Fixed "/api/skills/by-region"]
  | Heatmaps =>
      [Fixed "/api/heatmap/occupations-regions"; Fixed "/api/occupations/demand";
       Fixed "/api/heatmap/skills-regions-occupation"]
  | JobTypes =>
      [Fixed "/api/jobtypes/distribution"; Fixed "/api/jobtypes/categories";
       Fixed "/api/occupations/demand"; Fixed "/api/occupations/jobtypes/categories"]
  end.

Definition fixed_paths (p : page) : Prop :=
  Forall (fun t => match t with Fixed _ => True | Around _ _ => False end) (templates p).

(** The value that fills the paths of a page: on the Regions page the
    region chosen, on the Occupations page the occupation chosen, from
    whatever list the lookup gave. *)
Definition selection (p : page) (s : session) (selected : json) : Prop :=
  match p with
  | Regions =>
      exists regions, selected = chosen s regions "Select Region" "Enter Region" "Attiki"
  | Occupations =>
      exists occupations,
        selected = chosen s occupations "Select Occupation" "Enter Occupation"
                     "Software Developer"
  | _ => True
  end.

(** The URLs a page can ask for once the selection is known. *)
Definition page_urls (p : page) (base : string) (selected : json) : list fstring :=
  map (instantiate base selected) (templates p).

Definition carries_dates (d0 d1 : date) (r : request) : Prop :=
  assoc "start_date" (params r) = Some (JStr (strftime d0)) /\
  assoc "end_date" (params r) = Some (JStr (strftime d1)).

Definition carries_no_dates (r : request) : Prop :=
  assoc "start_date" (params r) = None /\ assoc "end_date" (params r) = None.

(** What holds of every request of a page. *)
Definition page_request (p : page) (base : string) (s : session) (selected : json)
    (r : request) : Prop :=
  method r = GET /\
  In (url r) (page_urls p base selected) /\
  (p <> Home ->
   forall d0 d1, picked s = [d0; d1] ->
                 is_lookup base r \/ carries_dates d0 d1 r).

(** What holds of every widget a page shows for a lookup. *)
Definition page_element (e : element) : Prop :=
  match e with
  | TextInput _ label value =>
      (label = "Enter Occupation" /\ value = "Software Developer") \/
      (label = "Enter Region" /\ value = "Attiki")
  | Selectbox _ _ options => options <> []
  | _ => True
  end.

(** What holds of every entry a page writes to the store. *)
Definition page_entry (p : page) (base : string) (srv : backend) (now : Z)
    (fk : page -> string -> string) (k : string * list string) (e : cache_entry) : Prop :=
  expires e = now + 3600 /\
  ((In p [Occupations; Skills; Heatmaps; JobTypes] /\
    k = (fk p "get_occupations", []) /\
    exists n, cached_value e = labels_result "esco_label" (srv n (occupations_lookup base)))
   \/
   (In p [Regions; Skills] /\
    exists level, In level ["nuts2"; "regional_unit"] /\
      k = (fk p "get_regions", [level]) /\
      exists n, cached_value e = labels_result "region" (srv n (regions_lookup base level)))).

(** The parts of the world a script only reads. *)
Definition same_frame (w w' : world) : Prop :=
  server w' = server w /\ clock w' = clock w /\ environ w' = environ w /\
  function_key w' = function_key w /\ draws w' = draws w.

(** [w'] comes after [w]: the log grew by requests satisfying [P], the
    screen by elements satisfying [Q], every entry of the store is an old
    one or a new one satisfying [E], and the entries that were live are
    still there. *)
Record advance (P : request -> Prop) (Q : element -> Prop)
    (E : backend -> Z -> (page -> string -> string) -> string * list string -> cache_entry -> Prop)
    (w w' : world) : Prop := {
  adv_frame : same_frame w w';
  adv_log : exists l, log w' = log w ++ l /\ Forall P l;
  adv_screen : exists l, screen w' = screen w ++ l /\ Forall Q l;
  adv_cache : forall k e,
      cache w' !! k = Some e ->
      cache w !! k = Some e \/ E (server w) (clock w) (function_key w) k e;
  adv_live : forall k e,
      cache w !! k = Some e -> clock w < expires e -> cache w' !! k = Some e
}.

Definition steps {A} (R : world -> world -> Prop) (m : M A) : Prop :=
  forall w, R w (snd (m w)).

Definition never_raises {A} (m : M A) : Prop :=
  forall w, exists a, fst (m w) = Ok a.

(** *** Browsing *)

(** A visit is one run of a page script: Streamlit executes the script from
    the top, so nothing of the previous run is left but the
    [st.cache_data] store; the backend, the time and the widget state are
    those of the moment. *)
Record visit := {
  visit_page : page;
  visit_session : session;
  visit_server : backend;
  visit_clock : Z;
  visit_draws : string -> response -> res bool
}.

Definition arrive (env : string -> option string) (fk : page -> string -> string)
    (v : visit) (store : gmap (string * list string) cache_entry) : world :=
  {| server := visit_server v; clock := visit_clock v; environ := env;
     function_key := fk; draws := visit_draws v;
     log := []; cache := store; screen := [] |}.

Fixpoint browse (env : string -> option string) (fk : page -> string -> string)
    (visits : list visit) (store : gmap (string * list string) cache_entry)
  : gmap (string * list string) cache_entry :=
  match visits with
  | [] => store
  | v :: rest =>
      browse env fk rest
        (cache (run (visit_page v) (visit_session v) (arrive env fk v store)))
  end.

Definition env_base (env : string -> option string) : string :=
  match env "API_BASE_URL" with
  | Some v => v
  | None => "http://localhost:8000"
  end.

(** Two runs that ask for the same URLs. *)
Definition same_endpoints (l1 l2 : list request) : Prop :=
  forall u, In u (map url l1) <-> In u (map url l2).

(** *** Worlds to try the scripts in *)

Definition quiet_session (dates : list date) : session :=
  {| picked := dates;
     slider_value := fun _ => None;
     radio_choice := fun _ => 0%nat;
     select_choice := fun _ => 0%nat;
     text_value := fun _ => None;
     checkbox_value := fun _ => None |}.

Definition may_to_june : list date :=
  [ {| year := 2025; month := 5; day := 1 |};
    {| year := 2025; month := 6; day := 30 |} ].

(** A backend that answers every request with a 200 and the same two
    labelled rows. *)
Definition steady_server : backend :=
  fun _ _ =>
    Responds {| status_code := 200;
                body := Some (JObj [("data",
                          JList [JObj [("esco_label", JStr "Nurse"); ("region", JStr "Attiki")];
                                 JObj [("esco_label", JStr "Cook"); ("region", JStr "Kriti")]])]) |}.

(** A backend that cannot be reached. *)
Definition dead_server : backend := fun _ _ => Raises RequestException.

Definition cold_world (srv : backend) : world :=
  {| server := srv; clock := 0; environ := fun _ => None;
     function_key := fun _ name => name;
     draws := fun _ _ => Ok true;
     log := []; cache := ∅; screen := [] |}.

Definition visit_of (p : page) (s : session) (now : Z) : visit :=
  {| visit_page := p; visit_session := s; visit_server := steady_server;
     visit_clock := now; visit_draws := fun _ _ => Ok true |}.

(** The second option of every radio and selectbox. *)
Definition second_choice (dates : list date) : session :=
  {| picked := dates;
     slider_value := fun _ => None;
     radio_choice := fun _ => 1%nat;
     select_choice := fun _ => 1%nat;
     text_value := fun _ => None;
     checkbox_value := fun _ => None |}.

(** ** Habits of the requests *)

(** Only the health check sets a timeout. *)
Definition timeout_only_on_health (base : string) (r : request) : Prop :=
  (timeout r = Some 5 /\ url r = health_url base) \/
  (timeout r = None /\ url r <> health_url base).

(** A [region_level] parameter is one of the two levels of the API. *)
Definition sends_known_level (r : request) : Prop :=
  forall v, assoc "region_level" (params r) = Some v ->
            v = JStr "nuts2" \/ v = JStr "regional_unit".

(** The two dates go together. *)
Definition dates_together (r : request) : Prop :=
  assoc "start_date" (params r) = None <-> assoc "end_date" (params r) = None.

Definition request_habits (base : string) (s : session) (r : request) : Prop :=
  timeout_only_on_health base r /\
  sends_known_level r /\
  dates_together r /\
  ((length (picked s) < 2)%nat -> carries_no_dates r).

(** The dates the block gives on a page with a range picker. *)
Definition range_dates (s : session) : option string * option string :=
  match take 2 (picked s) with
  | [d0; d1] => (Some (strftime d0), Some (strftime d1))
  | _ => (None, None)
  end.

(** A fragment that leaves the store as it found it. *)
Definition keeps_store {A} (m : M A) : Prop :=
  forall w, cache (snd (m w)) = cache w.

(** The request of a tab at a fixed path. *)
Definition tab_request (u : fstring) (ps : list (string * json)) : request :=
  {| method := GET; url := u; params := ps; timeout := None |}.

(** Whether the time-series tab of the Occupations page goes on to the
    monthly request: the daily request answered 200 and a non-empty table
    was drawn from it. *)
Definition monthly_due (w : world) (daily : request) : bool :=
  match server w (length (log w)) daily with
  | Raises _ => false
  | Responds r =>
      (status_code r =? 200) &&
      match draws w "occupations/timeseries" r with
      | Ok true => true
      | _ => false
      end
  end.

(** The four requests of the home page's quick stats. *)
Definition quick_stats_requests (base : string) : list request :=
  [ tab_request (endpoint base "/api/jobs/count") [];
    tab_request (endpoint base "/api/occupations/demand") [("top_n", JInt 100)];
    tab_request (endpoint base "/api/regions/jobs")
      [("region_level", JStr "nuts2"); ("top_n", JInt 100)];
    tab_request (endpoint base "/api/skills/top") [("top_n", JInt 100)] ].

(** Whether a quick stat ends normally: any status but 200 does, and a 200
    does when the body is a dict whose entry under [key], if any, is a
    number. *)
Definition quick_stat_passes (key : string) (o : outcome) : bool :=
  match o with
  | Raises _ => false
  | Responds r =>
      if status_code r =? 200 then
        match (let? data := response_json r in
               let? v := dict_get data key (JInt 0) in
               format_thousands v) with
        | Ok _ => true
        | Raise _ => false
        end
      else true
  end.

(** The value a page sends for its selection. *)
Definition sends_selection (selected : json) (r : request) : Prop :=
  (forall v, assoc "esco_label" (params r) = Some v -> v = selected) /\
  (forall v, assoc "region" (params r) = Some v -> v = selected).

(** A fragment that adds exactly the requests [l] to the log. *)
Definition logs {A} (l : list request) (m : M A) : Prop :=
  forall w, log (snd (m w)) = log w ++ l.

(** The quick stats that get asked for: the first, and each next one as
    long as the one before it passed. *)
Fixpoint issued (srv : backend) (n : nat) (stats : list (request * string)) : list request :=
  match stats with
  | [] => []
  | (r, key) :: rest =>
      r :: (if quick_stat_passes key (srv n r) then issued srv (S n) rest else [])
  end.

(** The keys the four quick stats read. *)
Definition quick_stats_keys : list string := ["total_jobs"; "count"; "count"; "count"].

(** A request about the selection: what it sends as [esco_label] or
    [region] is the value selected, and so is what fills its path. *)
Definition asks_about (p : page) (base : string) (selected : json) (r : request) : Prop :=
  sends_selection selected r /\ In (url r) (page_urls p base selected).


(** ** The widget of a lookup *)

(** The widget a page shows for a lookup, by what the helper returned. *)
Definition lookup_widget (sb : bool) (label fallback_label fallback : string)
    (l : option (list json)) : element :=
  if lookup_truthy l then Selectbox sb label (options_of l)
  else TextInput sb fallback_label fallback.

(** The two kinds of lookup widget. *)
Definition occupation_widget (e : element) : bool :=
  match e with
  | Selectbox _ label _ => String.eqb label "Select Occupation"
  | TextInput _ label _ => String.eqb label "Enter Occupation"
  | _ => false
  end.

Definition region_widget (e : element) : bool :=
  match e with
  | Selectbox _ label _ => String.eqb label "Select Region"
  | TextInput _ label _ => String.eqb label "Enter Region"
  | _ => false
  end.

Definition occupation_choice (sb : bool) : option (list json) -> element :=
  lookup_widget sb "Select Occupation" "Enter Occupation" "Software Developer".

Definition region_choice (sb : bool) : option (list json) -> element :=
  lookup_widget sb "Select Region" "Enter Region" "Attiki".

(** The key under which a helper's answer is stored. *)
Definition occupations_key (p : page) (fk : page -> string -> string) : string * list string :=
  (fk p "get_occupations", []).

Definition regions_key (p : page) (level : string) (fk : page -> string -> string)
  : string * list string :=
  (fk p "get_regions", [level]).

(** The level a page asks the regions of: what its "Region Level" radio
    holds. *)
Definition level_chosen (s : session) : string :=
  level_of (nth (radio_choice s "Region Level") region_levels (hd "" region_levels)).

(** What was put on the screen between two worlds. *)
Definition shown_since (w w' : world) : list element :=
  drop (length (screen w)) (screen w').

(** [w'] comes after [w] with the answer of a lookup live in the store
    under [key], the widget made of that answer on the screen and no other
    widget of its kind [K], and every request satisfying [P] of the
    answer. *)
Definition tied (K : element -> bool) (widget : option (list json) -> element)
    (key : (page -> string -> string) -> string * list string)
    (P : option (list json) -> request -> Prop)
    (E : backend -> Z -> (page -> string -> string) ->
         string * list string -> cache_entry -> Prop)
    (w w' : world) : Prop :=
  exists entry,
    cache w' !! key (function_key w) = Some entry /\
    clock w < expires entry /\
    advance (P (cached_value entry)) (fun _ => True) E w w' /\
    List.filter K (shown_since w w') = [widget (cached_value entry)].

(** The value a page works with, by what its helper returned. *)
Definition selected_from (p : page) (s : session) (l : option (list json)) : json :=
  match p with
  | Regions => chosen s l "Select Region" "Enter Region" "Attiki"
  | _ => chosen s l "Select Occupation" "Enter Occupation" "Software Developer"
  end.

Definition selection_key (p : page) (s : session) (fk : page -> string -> string)
  : string * list string :=
  match p with
  | Regions => regions_key Regions (level_chosen s) fk
  | _ => occupations_key p fk
  end.

Definition selection_widget (p : page) : option (list json) -> element :=
  match p with
  | Regions => region_choice true
  | _ => occupation_choice true
  end.

Definition selection_kind (p : page) : element -> bool :=
  match p with
  | Regions => region_widget
  | _ => occupation_widget
  end.


(** * Properties *)

(** ** The date block *)

Lemma digit_spec (n : Z) :
  is_digit (digit n) = true /\ Z.of_nat (nat_of_ascii (digit n)) - 48 = n mod 10.
Proof.
  unfold digit, is_digit.
  assert (H : 0 <= n mod 10 < 10) by (apply Z.mod_pos_bound; lia).
  assert (Hn : (Z.to_nat (n mod 10) < 10)%nat) by lia.
  rewrite nat_ascii_embedding by lia.
  split.
  - apply andb_true_intro; split; apply Nat.leb_le; lia.
  - lia.
Qed.

Lemma list_ascii_app (s t : string) :
  list_ascii_of_string (s ++ t) = list_ascii_of_string s ++ list_ascii_of_string t.
Proof. induction s as [|c s IH]; simpl; [reflexivity | now rewrite IH]. Qed.

Lemma zero_padded_digits (k : nat) (n : Z) :
  forallb is_digit (list_ascii_of_string (zero_padded k n)) = true.
Proof.
  revert n; induction k as [|k IH]; intros n; cbn [zero_padded]; [reflexivity|].
  rewrite list_ascii_app, forallb_app, IH. cbn [list_ascii_of_string forallb andb].
  now rewrite (proj1 (digit_spec n)).
Qed.

(** The digits written are the number, as long as it fits the width. *)
Lemma zero_padded_value (k : nat) (n : Z) :
  digits_value (zero_padded k n) = n mod 10 ^ Z.of_nat k.
Proof.
  unfold digits_value.
  revert n; induction k as [|k IH]; intros n.
  - cbn. now rewrite Z.mod_1_r.
  - cbn [zero_padded]. rewrite list_ascii_app, fold_left_app, IH. cbn [list_ascii_of_string fold_left].
    rewrite (proj2 (digit_spec n)).
    rewrite Nat2Z.inj_succ, Z.pow_succ_r by lia.
    rewrite Z.rem_mul_r by lia.
    lia.
Qed.

Lemma strftime_shape (d : date) : iso_date_shape (strftime d) = true.
Proof.
  unfold strftime, iso_date_shape. cbn [zero_padded].
  rewrite !list_ascii_app. cbn [list_ascii_of_string app forallb].
  rewrite !(proj1 (digit_spec _)). reflexivity.
Qed.

(** The three fields can be read back from the string of a valid date. *)
Lemma strftime_fields (d : date) :
  valid_date d ->
  digits_value (substring 0 4 (strftime d)) = year d /\
  digits_value (substring 5 2 (strftime d)) = month d /\
  digits_value (substring 8 2 (strftime d)) = day d.
Proof.
  intros (Hy & Hm & Hd).
  assert (E4 : substring 0 4 (strftime d) = zero_padded 4 (year d)) by reflexivity.
  assert (E5 : substring 5 2 (strftime d) = zero_padded 2 (month d)) by reflexivity.
  assert (E8 : substring 8 2 (strftime d) = zero_padded 2 (day d)) by reflexivity.
  rewrite E4, E5, E8, !zero_padded_value.
  repeat split; apply Z.mod_small; simpl; lia.
Qed.

Lemma derive_dates_pair (d0 d1 : date) :
  derive_dates (DateTuple [d0; d1]) = Ok (Some (strftime d0), Some (strftime d1)).
Proof. reflexivity. Qed.

Lemma derive_dates_partial (ds : list date) :
  length ds <> 2%nat -> derive_dates (DateTuple ds) = Ok (None, None).
Proof.
  intros H. unfold derive_dates; simpl.
  destruct (Nat.eqb_spec (length ds) 2); [contradiction | reflexivity].
Qed.

(** A range picker never makes the block raise: two dates picked give two
    formatted dates, fewer give [None] twice. *)
Lemma derive_dates_range (s : session) :
  (exists d0 d1, take 2 (picked s) = [d0; d1] /\
     derive_dates (date_input_returns s RangeValue)
     = Ok (Some (strftime d0), Some (strftime d1))) \/
  ((length (picked s) < 2)%nat /\
   derive_dates (date_input_returns s RangeValue) = Ok (None, None)).
Proof.
  unfold date_input_returns.
  destruct (picked s) as [|d0 [|d1 ds]]; cbn [take].
  - right. split; [cbn; lia | reflexivity].
  - right. split; [cbn; lia | reflexivity].
  - left. exists d0, d1. split; reflexivity.
Qed.

(** A single-date picker always does. *)
Lemma derive_dates_single (s : session) (d : date) :
  derive_dates (date_input_returns s (SingleValue d)) = Raise TypeError.
Proof. reflexivity. Qed.

(** ** Month-over-month growth *)

(** *** Rounding never loses a number that is not tiny *)










Lemma shift_lookup (xs : list float64) (i : nat) (prev : float64) :
  xs !! i = Some prev -> (S i < length xs)%nat -> shift xs !! S i = Some prev.
Proof.
  intros H Hlt. unfold shift.
  rewrite lookup_take_lt by lia. exact H.
Qed.

Lemma shift_length (xs : list float64) : length (shift xs) = length xs.
Proof. unfold shift. rewrite length_take. simpl. lia. Qed.

Lemma pct_change_length (xs : list float64) : length (pct_change xs) = length xs.
Proof. unfold pct_change. rewrite length_zip_with, shift_length. lia. Qed.

Lemma pct_change_first (xs : list float64) :
  xs <> [] -> pct_change xs !! 0%nat = Some S754_nan.
Proof.
  intros H. destruct xs as [|a xs]; [congruence|].
  change (pct_change (a :: xs) !! 0%nat)
    with (Some (f64_sub (f64_div a S754_nan) (f64_of_int 1))).
  now destruct a.
Qed.

Lemma pct_change_lookup (xs : list float64) (i : nat) (cur prev : float64) :
  xs !! S i = Some cur -> xs !! i = Some prev ->
  pct_change xs !! S i = Some (f64_sub (f64_div cur prev) (f64_of_int 1)).
Proof.
  intros Hc Hp. unfold pct_change.
  rewrite lookup_zip_with, Hc. simpl.
  rewrite (shift_lookup xs i prev Hp); [reflexivity|].
  now apply lookup_lt_Some in Hc.
Qed.

(** [x / p - 1], times 100, is [(x - p) / p] times 100 in exact
    arithmetic. *)
Lemma pct_change_rate_growth (cur prev : Q) :
  ~ prev == 0 -> pct_change_rate cur prev == growth_rate cur prev.
Proof. intros H. unfold pct_change_rate, growth_rate. now field. Qed.

Lemma mom_change_first (df : list monthly_row) :
  df <> [] -> mom_change df !! 0%nat = Some S754_nan.
Proof.
  intros H. unfold mom_change.
  rewrite list_lookup_fmap, pct_change_first; [reflexivity|].
  destruct df; [congruence | discriminate].
Qed.

Lemma mom_change_lookup (df : list monthly_row) (i : nat) (cur prev : monthly_row) :
  df !! S i = Some cur -> df !! i = Some prev ->
  mom_change df !! S i
  = Some (f64_mul (f64_sub (f64_div (to_float64 (total_jobs cur))
                                    (to_float64 (total_jobs prev)))
                           (f64_of_int 1))
                  (f64_of_int 100)).
Proof.
  intros Hc Hp. unfold mom_change. rewrite list_lookup_fmap.
  rewrite (pct_change_lookup _ i (to_float64 (total_jobs cur)) (to_float64 (total_jobs prev)));
    [reflexivity | |]; rewrite list_lookup_fmap; [now rewrite Hc | now rewrite Hp].
Qed.

Lemma mom_change_length (df : list monthly_row) : length (mom_change df) = length df.
Proof. unfold mom_change. now rewrite length_map, pct_change_length, length_map. Qed.

(** The growth chart plots the change of every row but the first. *)
Lemma growth_chart_points (df : list monthly_row) (i : nat) (cur : monthly_row) :
  (1 < length df)%nat -> df !! S i = Some cur ->
  exists fig xs ys,
    monthly_trends df = [fig; LineChart "Month-over-Month Growth Rate (%)" xs ys 0] /\
    length ys = (length df - 1)%nat /\ length xs = length ys /\
    ys !! i = mom_change df !! S i /\ xs !! i = Some (month_of cur).
Proof.
  intros Hlen Hc. unfold monthly_trends.
  destruct df as [|r0 df']; [discriminate|].
  destruct (Nat.ltb_spec 1 (length (r0 :: df'))); [|lia].
  eexists _, _, _; split; [reflexivity|].
  set (df := r0 :: df') in *.
  assert (Hz : length (zip df (mom_change df)) = length df)
    by (rewrite length_zip_with, mom_change_length; lia).
  assert (Hv : exists v, mom_change df !! S i = Some v).
  { apply lookup_lt_is_Some. rewrite mom_change_length. now apply lookup_lt_Some in Hc. }
  destruct Hv as [v Hv].
  split_and!.
  - rewrite length_map, length_drop, Hz. reflexivity.
  - now rewrite !length_map.
  - rewrite list_lookup_fmap, lookup_drop. change (1 + i)%nat with (S i).
    rewrite lookup_zip_with, Hc, Hv. reflexivity.
  - rewrite list_lookup_fmap, lookup_drop. change (1 + i)%nat with (S i).
    rewrite lookup_zip_with, Hc, Hv. reflexivity.
Qed.

(** C3, as stated, fails in the last digits: the change is computed in
    float64 as [(cur / prev - 1) * 100], which for 3 jobs followed by 1 is
    -66.66666666666667, while the formula of the claim evaluated in float64
    gives -66.66666666666666 and its exact value, -200/3, is no float64. *)
Lemma C3_counterexample :
  ~ (forall df i cur prev,
       Forall (fun r => in_column (total_jobs r)) df ->
       df !! S i = Some cur -> df !! i = Some prev ->
       mom_change df !! S i
       = Some (growth_rate_float64 (to_float64 (total_jobs cur))
                 (to_float64 (total_jobs prev)))) /\
  ~ (forall df i cur prev c p,
       Forall (fun r => in_column (total_jobs r)) df ->
       df !! S i = Some cur -> df !! i = Some prev ->
       total_jobs cur = PyInt c -> total_jobs prev = PyInt p -> p <> 0 ->
       exists v q,
         mom_change df !! S i = Some v /\ f64_value v = Some q /\
         q == growth_rate (inject_Z c) (inject_Z p)).
Proof.
  assert (Hcol : Forall (fun r => in_column (total_jobs r))
                   [ {| month_of := "2025-05"; total_jobs := PyInt 3 |};
                     {| month_of := "2025-06"; total_jobs := PyInt 1 |} ]).
  { repeat constructor; cbn; lia. }
  split; intros H.
  - specialize (H _ 0%nat _ _ Hcol eq_refl eq_refl). vm_compute in H. discriminate H.
  - destruct (H _ 0%nat _ _ 1 3 Hcol eq_refl eq_refl eq_refl eq_refl ltac:(lia))
      as (v & q & Hv & Hq & Heq).
    vm_compute in Hv. injection Hv as <-. cbn [f64_value] in Hq. injection Hq as <-.
    vm_compute in Heq. discriminate Heq.
Qed.

(** C3, amended.  When the monthly table has more than one row and its
    [total_jobs] column is numeric without missing values, the tab draws
    the growth chart; the change of every row [i >= 1] is computed by
    [pct_change] in float64 as [(total_jobs[i] / total_jobs[i-1] - 1) * 100],
    which in exact arithmetic is
    [(total_jobs[i] - total_jobs[i-1]) / total_jobs[i-1] * 100]; the chart
    runs over the rows from index 1 on, and the first row, whose change is
    NaN, is left out. *)
Theorem C3_month_over_month_growth (df : list monthly_row) :
  (1 < length df)%nat ->
  Forall (fun r => in_column (total_jobs r)) df ->
  (exists fig xs ys,
     monthly_trends df = [fig; LineChart "Month-over-Month Growth Rate (%)" xs ys 0] /\
     length ys = (length df - 1)%nat /\
     length xs = length ys /\
     mom_change df !! 0%nat = Some S754_nan /\
     forall i cur prev,
       df !! S i = Some cur -> df !! i = Some prev ->
       mom_change df !! S i
       = Some (f64_mul (f64_sub (f64_div (to_float64 (total_jobs cur))
                                         (to_float64 (total_jobs prev)))
                                (f64_of_int 1))
                       (f64_of_int 100)) /\
       ys !! i = mom_change df !! S i /\
       xs !! i = Some (month_of cur)) /\
  (forall cur prev : Q, ~ prev == 0 -> pct_change_rate cur prev == growth_rate cur prev).
Proof.
  intros Hlen _. split; [|apply pct_change_rate_growth].
  assert (Hne : df <> []) by (destruct df; simpl in Hlen; [lia | congruence]).
  assert (H1 : exists r1, df !! 1%nat = Some r1) by (apply lookup_lt_is_Some; lia).
  destruct H1 as [r1 H1].
  destruct (growth_chart_points df 0 r1 Hlen H1) as (fig & xs & ys & Hfig & Hly & Hlx & _).
  exists fig, xs, ys. split_and!; try assumption.
  - now apply mom_change_first.
  - intros i cur prev Hc Hp.
    destruct (growth_chart_points df i cur Hlen Hc)
      as (fig' & xs' & ys' & Hfig' & _ & _ & Hy & Hx).
    rewrite Hfig in Hfig'. injection Hfig' as _ <- <-.
    split_and!; [now apply mom_change_lookup | exact Hy | exact Hx].
Qed.

Lemma C3_month_over_month_growth_witness :
  exists fig xs ys,
    monthly_trends [ {| month_of := "2025-05"; total_jobs := PyInt 200 |};
                     {| month_of := "2025-06"; total_jobs := PyInt 250 |} ]
    = [fig; LineChart "Month-over-Month Growth Rate (%)" xs ys 0] /\
    ys !! 0%nat = Some (S754_finite false 7036874417766400 (-48)) /\
    f64_value (S754_finite false 7036874417766400 (-48)) = Some (7036874417766400 # 281474976710656) /\
    xs !! 0%nat = Some "2025-06".
Proof.
  destruct (C3_month_over_month_growth
              [ {| month_of := "2025-05"; total_jobs := PyInt 200 |};
                {| month_of := "2025-06"; total_jobs := PyInt 250 |} ])
    as [(fig & xs & ys & H & _ & _ & _ & Hrow) _].
  - simpl; lia.
  - repeat constructor; cbn; lia.
  - destruct (Hrow 0%nat _ _ eq_refl eq_refl) as (Hv & Hy & Hx).
    exists fig, xs, ys. split_and!; [exact H | | reflexivity | exact Hx].
    etransitivity; [exact Hy|]. etransitivity; [exact Hv|]. vm_compute. reflexivity.
Defined.

(** ** Frames and the heatmaps *)

(** The library's [map] under stdpp's lookup. *)
Lemma lookup_map {A B} (f : A -> B) (l : list A) (i : nat) :
  map f l !! i = f <$> (l !! i).
Proof. exact (list_lookup_fmap f l i). Qed.

Lemma fit_rows_many (r r' : list Q) (m : list (list Q)) (width rows : nat) :
  fit_rows (r :: r' :: m) width rows
  = if negb (length (r :: r' :: m) =? rows)%nat then Raise ValueError
    else Ok (map (pad_row width) (r :: r' :: m)).
Proof. reflexivity. Qed.

Lemma DataFrame_labels (m : list (list Q)) (idx cols : list string) (f : frame) :
  DataFrame m idx cols = Ok f -> index f = idx /\ columns f = cols.
Proof.
  unfold DataFrame. intros H.
  destruct m as [|r m]; [now inversion H|].
  cbv zeta in H.
  destruct (negb _); [discriminate|].
  destruct (_ =? 0)%nat; [now inversion H|].
  destruct (fit_rows _ _ _); [|discriminate].
  now inversion H.
Qed.

Lemma pad_row_lookup (width : nat) (row : list Q) (j : nat) (v : Q) :
  row !! j = Some v -> pad_row width row !! j = Some (Finite v).
Proof.
  intros H. unfold pad_row.
  rewrite lookup_app_l by (rewrite length_map; now apply lookup_lt_Some in H).
  now rewrite lookup_map, H.
Qed.

(** Every cell the nested list has, on a row the index reaches, is the
    cell of the frame at the same place. *)
Lemma DataFrame_cells (m : list (list Q)) (idx cols : list string) (f : frame) :
  DataFrame m idx cols = Ok f ->
  forall i j row v,
    (i < length idx)%nat ->
    m !! i = Some row -> row !! j = Some v ->
    exists frow, values f !! i = Some frow /\ frow !! j = Some (Finite v).
Proof.
  unfold DataFrame. intros H i j row v Hlt Hi Hj.
  destruct m as [|r m]; [discriminate|].
  cbv zeta in H. remember (r :: m) as data eqn:Hdata.
  assert (Hw : (length row <= max_list (map length data))%nat).
  { apply max_list_elem_of_le, list_elem_of_fmap. exists row; split; [reflexivity|].
    apply list_elem_of_lookup; eauto. }
  assert (Hjlt : (j < length row)%nat) by now apply lookup_lt_Some in Hj.
  destruct (negb (max_list (map length data) =? length cols)%nat); [discriminate|].
  destruct (Nat.eqb_spec (max_list (map length data)) 0); [lia|].
  destruct (fit_rows data (max_list (map length data)) (length idx)) as [fitted|e] eqn:Hfit;
    [|discriminate].
  injection H as <-. cbn [values].
  exists (pad_row (max_list (map length data)) row). split; [|now apply pad_row_lookup].
  destruct m as [|r' m].
  - subst data. injection Hfit as <-. destruct i as [|i]; [|discriminate].
    injection Hi as <-. now apply lookup_replicate_2.
  - rewrite Hdata, fit_rows_many, <- Hdata in Hfit.
    destruct (negb (length data =? length idx)%nat); [discriminate|].
    injection Hfit as <-. now rewrite lookup_map, Hi.
Qed.

Lemma rectangular_width (m : list (list Q)) (rows cols : nat) :
  m <> [] -> rectangular m rows cols -> max_list (map length m) = cols.
Proof.
  intros Hne [_ Hall]. induction Hall as [|row m Hrow Hall IH]; [congruence|].
  change (max_list (map length (row :: m)))
    with (Nat.max (length row) (max_list (map length m))).
  rewrite Hrow. destruct m as [|r m].
  - change (max_list (map length [])) with 0%nat. lia.
  - rewrite IH by congruence. lia.
Qed.

Lemma pad_row_full (row : list Q) : pad_row (length row) row = map Finite row.
Proof. unfold pad_row. rewrite Nat.sub_diag. cbn. now rewrite app_nil_r. Qed.

Lemma pad_rows_full (m : list (list Q)) (cols : nat) :
  Forall (fun row => length row = cols) m -> map (pad_row cols) m = map (map Finite) m.
Proof.
  intros Hall. apply map_ext_Forall. eapply Forall_impl; [exact Hall|].
  intros row Hrow. cbn beta in Hrow. rewrite <- Hrow. apply pad_row_full.
Qed.

(** A matrix of the labels' shape is fitted as it is. *)
Lemma fit_rows_rectangular (m : list (list Q)) (rows cols : nat) :
  rectangular m rows cols -> fit_rows m cols rows = Ok (map (map Finite) m).
Proof.
  intros [Hrows Hall]. unfold fit_rows.
  destruct m as [|r [|r' m]].
  - cbn in Hrows. subst rows. reflexivity.
  - cbn in Hrows. subst rows. apply Forall_inv in Hall. subst cols.
    cbn [replicate map]. now rewrite pad_row_full.
  - rewrite Hrows, Nat.eqb_refl. cbn [negb]. now rewrite (pad_rows_full _ cols Hall).
Qed.

(** A well-shaped matrix makes the frame of its cells. *)
Lemma DataFrame_rectangular (m : list (list Q)) (idx cols : list string) :
  m <> [] -> cols <> [] -> rectangular m (length idx) (length cols) ->
  DataFrame m idx cols =
    Ok {| index := idx; columns := cols; values := map (map Finite) m |}.
Proof.
  intros Hne Hc Hrect.
  pose proof (rectangular_width m _ _ Hne Hrect) as Hw.
  unfold DataFrame. destruct m as [|r m]; [congruence|].
  cbv zeta. rewrite Hw, Nat.eqb_refl. cbn [negb].
  destruct (Nat.eqb_spec (length cols) 0) as [E|_].
  { destruct cols; [congruence | discriminate]. }
  now rewrite (fit_rows_rectangular _ _ _ Hrect).
Qed.

(** The cell of a matrix at [(i, j)], as the heatmap would show it. *)
Lemma cell_of_matrix (h : heatmap) (m : list (list Q)) :
  z h = map (map Finite) m ->
  forall i j, cell h i j = (m !! i ≫= fun row => Finite <$> row !! j).
Proof.
  intros Hz i j. unfold cell. rewrite Hz, lookup_map.
  destruct (m !! i) as [row|]; [|reflexivity]. cbn. apply lookup_map.
Qed.

Lemma occupations_regions_heatmap_inv (data : occupations_regions) (h : heatmap) :
  occupations_regions_heatmap data = Ok (Some h) ->
  exists matrix occupations regions pivot_df,
    or_matrix data = Some matrix /\ or_occupations data = Some occupations /\
    or_regions data = Some regions /\
    DataFrame matrix occupations regions = Ok pivot_df /\
    distinct regions = true /\
    z h = values pivot_df /\ y_labels h = occupations /\ x_labels h = regions.
Proof.
  unfold occupations_regions_heatmap. intros H.
  destruct (or_matrix data) as [matrix|]; [|discriminate].
  destruct (or_occupations data) as [occupations|]; [|discriminate].
  destruct (or_regions data) as [regions|]; [|discriminate].
  destruct (DataFrame matrix occupations regions) as [pivot_df|e] eqn:Hdf; [|discriminate].
  destruct (DataFrame_labels _ _ _ _ Hdf) as [Hi Hc].
  cbn [res_bind] in H. unfold px_imshow in H. rewrite Hc in H.
  destruct (distinct regions) eqn:Hd; [|discriminate].
  cbn in H. injection H as <-.
  exists matrix, occupations, regions, pivot_df. cbn. split_and!; auto.
Qed.

(** The tab does draw when the response carries a well-shaped matrix. *)
Lemma occupations_regions_heatmap_drawn (matrix : list (list Q)) (occupations regions : list string) :
  matrix <> [] -> regions <> [] ->
  rectangular matrix (length occupations) (length regions) ->
  distinct regions = true ->
  exists h,
    occupations_regions_heatmap
      {| or_matrix := Some matrix; or_occupations := Some occupations;
         or_regions := Some regions |} = Ok (Some h) /\
    z h = map (map Finite) matrix /\ y_labels h = occupations /\ x_labels h = regions.
Proof.
  intros Hm Hr Hrect Hd. unfold occupations_regions_heatmap. cbn.
  rewrite (DataFrame_rectangular _ _ _ Hm Hr Hrect). cbn. unfold px_imshow. cbn.
  rewrite Hd. cbn. eexists; split_and!; reflexivity.
Qed.

(** C6, as stated, fails: a matrix of one row is repeated for every
    occupation the response names, so the heatmap has cells the matrix has
    not. *)
Lemma C6_counterexample :
  ~ (forall data h matrix,
       or_matrix data = Some matrix ->
       occupations_regions_heatmap data = Ok (Some h) ->
       forall i j v,
         cell h i j = Some v ->
         exists row q, matrix !! i = Some row /\ row !! j = Some q /\ v = Finite q).
Proof.
  intros H.
  destruct (H {| or_matrix := Some [[12; 3]]%Q; or_occupations := Some ["Nurse"; "Cook"];
                 or_regions := Some ["Attiki"; "Kriti"] |}
              _ _ eq_refl eq_refl 1%nat 0%nat (Finite 12) eq_refl)
    as (row & q & Hrow & _).
  discriminate Hrow.
Qed.

(** C6, amended.  The pivot table has the occupations list as its row index
    and the regions list as its column index, and every cell the matrix has
    on a row that has a label is shown at its place.  When the matrix has
    one row for every occupation and one cell for every region, and no
    region occurs twice, the heatmap is drawn and cell [(i, j)] of it is
    [matrix[i][j]]: it has those cells and no others. *)
Theorem C6_occupations_regions_cells (data : occupations_regions)
    (matrix : list (list Q)) (occupations regions : list string) :
  or_matrix data = Some matrix ->
  or_occupations data = Some occupations ->
  or_regions data = Some regions ->
  (forall h,
     occupations_regions_heatmap data = Ok (Some h) ->
     y_labels h = occupations /\ x_labels h = regions /\
     forall i j row v,
       (i < length occupations)%nat ->
       matrix !! i = Some row -> row !! j = Some v -> cell h i j = Some (Finite v)) /\
  (matrix <> [] -> regions <> [] ->
   rectangular matrix (length occupations) (length regions) ->
   distinct regions = true ->
   exists h,
     occupations_regions_heatmap data = Ok (Some h) /\
     y_labels h = occupations /\ x_labels h = regions /\
     forall i j, cell h i j = (matrix !! i ≫= fun row => Finite <$> row !! j)).
Proof.
  intros Hm Ho Hr. split.
  - intros h H.
    destruct (occupations_regions_heatmap_inv _ _ H)
      as (m' & o' & r' & pivot_df & Hm' & Ho' & Hr' & Hdf & _ & Hz & Hy & Hx).
    rewrite Hm in Hm'. rewrite Ho in Ho'. rewrite Hr in Hr'.
    injection Hm' as <-. injection Ho' as <-. injection Hr' as <-.
    split_and!; [exact Hy | exact Hx |].
    intros i j row v Hlt Hrow Hv.
    destruct (DataFrame_cells _ _ _ _ Hdf i j row v Hlt Hrow Hv) as (frow & Hf & Hfj).
    unfold cell. now rewrite Hz, Hf.
  - intros Hne Hrne Hrect Hd.
    destruct (occupations_regions_heatmap_drawn matrix occupations regions Hne Hrne Hrect Hd)
      as (h & Hh & Hz & Hy & Hx).
    exists h. split_and!; try assumption.
    + destruct data as [dm dos dr]. cbn in Hm, Ho, Hr. now subst.
    + now apply cell_of_matrix.
Qed.

Lemma C6_occupations_regions_cells_witness :
  exists h,
    occupations_regions_heatmap
      {| or_matrix := Some [[12; 3]; [7; 9]]%Q;
         or_occupations := Some ["Nurse"; "Cook"];
         or_regions := Some ["Attiki"; "Kriti"] |} = Ok (Some h) /\
    y_labels h = ["Nurse"; "Cook"] /\ x_labels h = ["Attiki"; "Kriti"] /\
    cell h 1 0 = Some (Finite 7) /\ cell h 2 0 = None /\ cell h 1 2 = None.
Proof.
  destruct (C6_occupations_regions_cells
              {| or_matrix := Some [[12; 3]; [7; 9]]%Q;
                 or_occupations := Some ["Nurse"; "Cook"];
                 or_regions := Some ["Attiki"; "Kriti"] |}
              [[12; 3]; [7; 9]]%Q ["Nurse"; "Cook"] ["Attiki"; "Kriti"]
              eq_refl eq_refl eq_refl) as [_ H].
  destruct H as (h & Hh & Hy & Hx & Hcell).
  - discriminate.
  - discriminate.
  - split; [reflexivity | repeat constructor].
  - reflexivity.
  - exists h. split_and!; [exact Hh | exact Hy | exact Hx | | |]; rewrite Hcell; reflexivity.
Defined.

(** *** The checkbox of the Skills x Regions tab *)








(** ** Reasoning about script fragments *)

Lemma same_frame_refl (w : world) : same_frame w w.
Proof. repeat split. Qed.

Lemma same_frame_trans (w1 w2 w3 : world) :
  same_frame w1 w2 -> same_frame w2 w3 -> same_frame w1 w3.
Proof.
  intros (A1 & A2 & A3 & A4 & A5) (B1 & B2 & B3 & B4 & B5).
  repeat split; congruence.
Qed.

Section Advance.
Variable P : request -> Prop.
Variable Q : element -> Prop.
Variable E : backend -> Z -> (page -> string -> string) ->
             string * list string -> cache_entry -> Prop.

Abbreviation R := (advance P Q E).

Lemma advance_refl (w : world) : R w w.
Proof.
  constructor.
  - apply same_frame_refl.
  - exists []. rewrite app_nil_r. auto.
  - exists []. rewrite app_nil_r. auto.
  - auto.
  - auto.
Qed.

Lemma advance_trans (w1 w2 w3 : world) : R w1 w2 -> R w2 w3 -> R w1 w3.
Proof.
  intros [F1 (l1 & L1 & P1) (s1 & S1 & Q1) C1 V1] [F2 (l2 & L2 & P2) (s2 & S2 & Q2) C2 V2].
  constructor.
  - eapply same_frame_trans; eassumption.
  - exists (l1 ++ l2). rewrite L2, L1, app_assoc. split; [reflexivity|].
    apply Forall_app; auto.
  - exists (s1 ++ s2). rewrite S2, S1, app_assoc. split; [reflexivity|].
    apply Forall_app; auto.
  - intros k e H. destruct (C2 k e H) as [H'|H'].
    + apply C1, H'.
    + right. destruct F1 as (Fs & Fc & _ & Ff & _).
      rewrite Fs, Fc, Ff in H'. exact H'.
  - intros k e H Hlive. apply V2; [now apply V1|].
    destruct F1 as (_ & Fc & _). now rewrite Fc.
Qed.

Lemma steps_ret {A} (a : A) : steps R (ret a).
Proof. intros w. apply advance_refl. Qed.

Lemma steps_raise {A} (e : exn) : steps R (@raise A e).
Proof. intros w. apply advance_refl. Qed.

Lemma steps_lift {A} (r : res A) : steps R (lift r).
Proof. intros w. apply advance_refl. Qed.

Lemma steps_getenv (name default : string) : steps R (os_getenv name default).
Proof. intros w. apply advance_refl. Qed.

Lemma steps_draw (tab : string) (r : response) : steps R (draw tab r).
Proof. intros w. apply advance_refl. Qed.

Lemma steps_bind {A B} (m : M A) (k : A -> M B) :
  steps R m -> (forall a, steps R (k a)) -> steps R (bind m k).
Proof.
  intros Hm Hk w. unfold bind. specialize (Hm w).
  destruct (m w) as [[a|e] w']; cbn in *; [|exact Hm].
  eapply advance_trans; [exact Hm | apply Hk].
Qed.

(** After a pure step the rest runs with what the step gave. *)
Lemma steps_bind_lift {A B} (r : res A) (k : A -> M B) :
  (forall a, r = Ok a -> steps R (k a)) -> steps R (bind (lift r) k).
Proof.
  intros Hk w. unfold bind, lift. destruct r as [a|e]; cbn.
  - now apply Hk.
  - apply advance_refl.
Qed.

Lemma steps_try {A} (body : M A) (handler : exn -> M A) :
  steps R body -> (forall e, steps R (handler e)) -> steps R (try_except body handler).
Proof.
  intros Hb Hh w. unfold try_except. specialize (Hb w).
  destruct (body w) as [[a|e] w']; cbn in *; [exact Hb|].
  eapply advance_trans; [exact Hb | apply Hh].
Qed.

Lemma steps_show (e : element) : Q e -> steps R (show e).
Proof.
  intros He w. unfold show. constructor; cbn.
  - repeat split.
  - exists []. rewrite app_nil_r. auto.
  - exists [e]. auto.
  - auto.
  - auto.
Qed.

Lemma steps_requests_get (u : fstring) (ps : list (string * json)) (t : option Z) :
  P {| method := GET; url := u; params := ps; timeout := t |} ->
  steps R (requests_get u ps t).
Proof.
  intros Hr w. unfold requests_get.
  assert (R w (with_log w (log w ++ [{| method := GET; url := u; params := ps; timeout := t |}]))).
  { constructor; cbn.
    - repeat split.
    - eexists; split; [reflexivity|]. auto.
    - exists []. rewrite app_nil_r. auto.
    - auto.
    - auto. }
  destruct (server w _ _); cbn; assumption.
Qed.

(** A decorated function: the store gets at most the entry of this call,
    holding what the function returned. *)
Lemma steps_cache_data (ttl : Z) (p : page) (name : string) (args : list string)
    (f : M (option (list json))) :
  steps R f ->
  (forall w v, fst (f w) = Ok v ->
     E (server w) (clock w) (function_key w) (function_key w p name, args)
       {| cached_value := v; expires := clock w + ttl |}) ->
  steps R (cache_data ttl p name args f).
Proof.
  intros Hf Hv w. unfold cache_data.
  assert (Hc : (forall e, cache w !! (function_key w p name, args) = Some e ->
                          expires e <= clock w) ->
               R w (snd (match f w with
                         | (Ok v, w') =>
                             (Ok v, with_cache w'
                                (<[(function_key w p name, args) :=
                                     {| cached_value := v; expires := clock w' + ttl |}]>
                                   (cache w')))
                         | (Raise e, w') => (Raise e, w')
                         end))).
  { intros Hdead. specialize (Hf w). specialize (Hv w).
    destruct (f w) as [[v|e] w']; cbn in *; [|exact Hf].
    destruct Hf as [F L S C V]. constructor; cbn; try assumption.
    - intros k e Hk.
      destruct (decide ((function_key w p name, args) = k)) as [<-|Hne].
      + rewrite lookup_insert_eq in Hk. injection Hk as <-. right.
        destruct F as (_ & -> & _). now apply Hv.
      + rewrite lookup_insert_ne in Hk by exact Hne. now apply C.
    - intros k e Hk Hlive.
      destruct (decide ((function_key w p name, args) = k)) as [<-|Hne].
      + specialize (Hdead e Hk). lia.
      + rewrite lookup_insert_ne by exact Hne. now apply V. }
  destruct (cache w !! (function_key w p name, args)) as [entry|] eqn:Hk;
    [|apply Hc; intros e He; discriminate He].
  destruct (Z.ltb_spec (clock w) (expires entry)); [apply advance_refl|].
  apply Hc. intros e He. injection He as <-. lia.
Qed.

(** *** The widgets *)

Lemma steps_date_input (s : session) (label : string) (value : date_input_value) :
  Q (DateInput true label value) -> steps R (st_sidebar_date_input s label value).
Proof. intros H. apply steps_bind; [now apply steps_show | intros; apply steps_ret]. Qed.

(** The rest of the script runs with the value the widget holds. *)
Lemma steps_bind_date_input {B} (s : session) (label : string) (value : date_input_value)
  (k : date_value -> M B) :
  Q (DateInput true label value) ->
  steps R (k (date_input_returns s value)) ->
  steps R (bind (st_sidebar_date_input s label value) k).
Proof.
  intros H Hk w. unfold st_sidebar_date_input, bind, show, ret. cbn.
  eapply advance_trans; [apply (steps_show _ H w) | apply Hk].
Qed.

Lemma steps_slider (s : session) (label : string) (lo hi default : Z) (key : string) :
  Q (Slider label lo hi default) -> steps R (st_slider s label lo hi default key).
Proof. intros H. apply steps_bind; [now apply steps_show | intros; apply steps_ret]. Qed.

Lemma steps_radio (s : session) (sb : bool) (label : string) (options : list string)
    (key : string) :
  Q (Radio sb label options) -> steps R (st_radio s sb label options key).
Proof. intros H. apply steps_bind; [now apply steps_show | intros; apply steps_ret]. Qed.

Lemma steps_selectbox (s : session) (sb : bool) (label : string) (options : list json)
    (key : string) :
  Q (Selectbox sb label options) -> steps R (st_selectbox s sb label options key).
Proof. intros H. apply steps_bind; [now apply steps_show | intros; apply steps_ret]. Qed.

Lemma steps_text_input (s : session) (sb : bool) (label value : string) :
  Q (TextInput sb label value) -> steps R (st_text_input s sb label value).
Proof. intros H. apply steps_bind; [now apply steps_show | intros; apply steps_ret]. Qed.

Lemma steps_checkbox (s : session) (label : string) (value : bool) :
  Q (Checkbox label value) -> steps R (st_checkbox s label value).
Proof. intros H. apply steps_bind; [now apply steps_show | intros; apply steps_ret]. Qed.

(** *** The shared blocks *)

Lemma steps_fetch_and_draw (tab : string) (u : fstring) (ps : list (string * json)) :
  P {| method := GET; url := u; params := ps; timeout := None |} ->
  (forall e, Q (ErrorBox e)) ->
  steps R (fetch_and_draw tab u ps).
Proof.
  intros Hr He. unfold fetch_and_draw, st_error.
  apply steps_try; [|intros e; apply steps_show, He].
  apply steps_bind; [now apply steps_requests_get|].
  intros response. destruct (status_code response =? 200); [|apply steps_ret].
  apply steps_bind; [apply steps_draw | intros; apply steps_ret].
Qed.

Lemma steps_select_or_type (s : session) (sb : bool) (l : option (list json))
    (label key fallback_label fallback : string) :
  (forall o, o <> [] -> Q (Selectbox sb label o)) ->
  Q (TextInput sb fallback_label fallback) ->
  steps R (select_or_type s sb l label key fallback_label fallback).
Proof.
  intros Hs Ht. unfold select_or_type.
  destruct l as [[|x o]|]; cbn [lookup_truthy options_of].
  - now apply steps_text_input.
  - apply steps_selectbox, Hs. discriminate.
  - now apply steps_text_input.
Qed.
End Advance.

Lemma advance_mono (P P' : request -> Prop) (Q : element -> Prop)
    (E : backend -> Z -> (page -> string -> string) ->
         string * list string -> cache_entry -> Prop) (w w' : world) :
  (forall r, P r -> P' r) -> advance P Q E w w' -> advance P' Q E w w'.
Proof.
  intros HP [F (l & L & HL) S C V]. constructor; try assumption.
  exists l. split; [assumption|]. eapply Forall_impl; [exact HL | exact HP].
Qed.

(** ** The lookup helpers *)

(** The body of a lookup issues its one request and returns by the outcome,
    never raising. *)
Lemma get_occupations_body_run (base : string) (w : world) :
  get_occupations_body base w =
    (Ok (labels_result "esco_label" (server w (length (log w)) (occupations_lookup base))),
     with_log w (log w ++ [occupations_lookup base])).
Proof.
  unfold get_occupations_body, try_except, bind, requests_get, labels_result.
  fold (occupations_lookup base).
  destruct (server w (length (log w)) (occupations_lookup base)) as [e|r]; [reflexivity|].
  destruct (status_code r =? 200); [|reflexivity].
  unfold lift. destruct (response_json r) as [data|e]; [|reflexivity].
  cbn. destruct (labels_of data "esco_label"); reflexivity.
Qed.

Lemma get_regions_body_run (base level : string) (w : world) :
  get_regions_body base level w =
    (Ok (labels_result "region" (server w (length (log w)) (regions_lookup base level))),
     with_log w (log w ++ [regions_lookup base level])).
Proof.
  unfold get_regions_body, try_except, bind, requests_get, labels_result.
  fold (regions_lookup base level).
  destruct (server w (length (log w)) (regions_lookup base level)) as [e|r]; [reflexivity|].
  destruct (status_code r =? 200); [|reflexivity].
  unfold lift. destruct (response_json r) as [data|e]; [|reflexivity].
  cbn. destruct (labels_of data "region"); reflexivity.
Qed.

(** The decorated helper returns a live entry or what its body returns. *)
Lemma cache_data_never_raises (ttl : Z) (p : page) (name : string) (args : list string)
    (f : M (option (list json))) :
  never_raises f -> never_raises (cache_data ttl p name args f).
Proof.
  intros Hf w. unfold cache_data.
  assert (Hc : exists a,
             fst (match f w with
                  | (Ok v, w') =>
                      (Ok v, with_cache w'
                         (<[(function_key w p name, args) :=
                              {| cached_value := v; expires := clock w' + ttl |}]>
                            (cache w')))
                  | (Raise e, w') => (Raise e, w')
                  end) = Ok a).
  { destruct (Hf w) as [a Ha]. destruct (f w) as [[v|e] w']; cbn in *; [eauto | discriminate]. }
  destruct (cache w !! (function_key w p name, args)) as [entry|]; [|exact Hc].
  destruct (clock w <? expires entry); [eexists; reflexivity | exact Hc].
Qed.

Lemma get_occupations_never_raises (p : page) (base : string) :
  never_raises (get_occupations p base).
Proof.
  apply cache_data_never_raises. intros w. rewrite get_occupations_body_run. eauto.
Qed.

Lemma get_regions_never_raises (p : page) (base level : string) :
  never_raises (get_regions p base level).
Proof.
  apply cache_data_never_raises. intros w. rewrite get_regions_body_run. eauto.
Qed.

Lemma select_or_type_never_raises (s : session) (sb : bool) (l : option (list json))
    (label key fallback_label fallback : string) :
  never_raises (select_or_type s sb l label key fallback_label fallback).
Proof.
  intros w. unfold select_or_type.
  destruct (lookup_truthy l); eexists; reflexivity.
Qed.

Section Lookups.
Variable P : request -> Prop.
Variable Q : element -> Prop.
Variables (p : page) (base : string).

Lemma steps_get_occupations :
  In p [Occupations; Skills; Heatmaps; JobTypes] ->
  P (occupations_lookup base) ->
  steps (advance P Q (page_entry p base)) (get_occupations p base).
Proof.
  intros Hp Hr. apply steps_cache_data.
  - intros w. rewrite get_occupations_body_run. constructor; cbn.
    + repeat split.
    + eexists; split; [reflexivity|]. auto.
    + exists []. rewrite app_nil_r. auto.
    + auto.
    + auto.
  - intros w v Hv. rewrite get_occupations_body_run in Hv. cbn in Hv.
    injection Hv as <-. split; [reflexivity|]. left.
    split_and!; [exact Hp | reflexivity | eexists; reflexivity].
Qed.

Lemma steps_get_regions (level : string) :
  In p [Regions; Skills] ->
  In level ["nuts2"; "regional_unit"] ->
  P (regions_lookup base level) ->
  steps (advance P Q (page_entry p base)) (get_regions p base level).
Proof.
  intros Hp Hl Hr. apply steps_cache_data.
  - intros w. rewrite get_regions_body_run. constructor; cbn.
    + repeat split.
    + eexists; split; [reflexivity|]. auto.
    + exists []. rewrite app_nil_r. auto.
    + auto.
    + auto.
  - intros w v Hv. rewrite get_regions_body_run in Hv. cbn in Hv.
    injection Hv as <-. split; [reflexivity|]. right.
    split; [exact Hp|]. exists level.
    split_and!; [exact Hl | reflexivity | eexists; reflexivity].
Qed.
End Lookups.

Lemma level_of_cases (region_level : string) :
  In (level_of region_level) ["nuts2"; "regional_unit"].
Proof. unfold level_of. destruct (String.eqb _ _); cbn; auto. Qed.

(** ** Query parameters *)

Lemma assoc_dict_set_eq {A} (k : string) (v : A) (d : list (string * A)) :
  assoc k (dict_set k v d) = Some v.
Proof.
  induction d as [|[k' v'] d IH]; cbn.
  - now rewrite String.eqb_refl.
  - destruct (String.eqb_spec k k') as [->|Hne]; cbn.
    + now rewrite String.eqb_refl.
    + destruct (String.eqb_spec k k'); [contradiction | exact IH].
Qed.

Lemma assoc_dict_set_ne {A} (k k' : string) (v : A) (d : list (string * A)) :
  k <> k' -> assoc k (dict_set k' v d) = assoc k d.
Proof.
  intros Hne. induction d as [|[k'' v''] d IH]; cbn.
  - destruct (String.eqb_spec k k'); [contradiction | reflexivity].
  - destruct (String.eqb_spec k' k'') as [->|Hne']; cbn.
    + destruct (String.eqb_spec k k''); [contradiction | reflexivity].
    + destruct (String.eqb_spec k k''); [reflexivity | exact IH].
Qed.

Lemma strftime_nonempty (d : date) : String.eqb (strftime d) "" = false.
Proof.
  destruct (String.eqb_spec (strftime d) "") as [E|_]; [|reflexivity].
  pose proof (strftime_shape d) as H. rewrite E in H. discriminate.
Qed.

Lemma with_dates_full (d0 d1 : date) (ps : list (string * json)) :
  assoc "start_date" (with_dates (Some (strftime d0)) (Some (strftime d1)) ps)
    = Some (JStr (strftime d0)) /\
  assoc "end_date" (with_dates (Some (strftime d0)) (Some (strftime d1)) ps)
    = Some (JStr (strftime d1)).
Proof.
  unfold with_dates, str_truthy. rewrite !strftime_nonempty. cbn [negb andb].
  unfold dict_update. cbn [fold_left fst snd str_json]. split.
  - rewrite assoc_dict_set_ne by discriminate. apply assoc_dict_set_eq.
  - apply assoc_dict_set_eq.
Qed.

(** Without a full range the query is the one the tab started from. *)
Lemma with_dates_none (start_date end_date : option string) (ps : list (string * json)) :
  start_date = None \/ end_date = None -> with_dates start_date end_date ps = ps.
Proof.
  intros [-> | ->]; unfold with_dates; cbn; [reflexivity|].
  now rewrite andb_false_r.
Qed.

Lemma with_category_other (category_param : option string) (ps : list (string * json))
    (k : string) :
  k <> "category" -> assoc k (with_category category_param ps) = assoc k ps.
Proof.
  intros Hk. unfold with_category. destruct (str_truthy category_param); [|reflexivity].
  now apply assoc_dict_set_ne.
Qed.

Lemma with_dates_other (start_date end_date : option string) (ps : list (string * json))
    (k : string) :
  k <> "start_date" -> k <> "end_date" ->
  assoc k (with_dates start_date end_date ps) = assoc k ps.
Proof.
  intros Hs He. unfold with_dates.
  destruct (str_truthy start_date && str_truthy end_date); [|reflexivity].
  unfold dict_update. cbn [fold_left fst snd].
  now rewrite !assoc_dict_set_ne.
Qed.

Lemma derive_dates_full (s : session) (d0 d1 : date) (dates : option string * option string) :
  picked s = [d0; d1] ->
  derive_dates (date_input_returns s RangeValue) = Ok dates ->
  dates = (Some (strftime d0), Some (strftime d1)).
Proof.
  unfold date_input_returns. intros -> H. cbn [take] in H.
  rewrite derive_dates_pair in H. now injection H.
Qed.

(** ** Every page, step by step *)

Lemma bind_api_base {B} (k : string -> M B) (w : world) :
  bind API_BASE_URL k w = k (api_base w) w.
Proof. reflexivity. Qed.

Lemma steps_run {A} (R : world -> world -> Prop) (m : M A) (w : world) :
  steps R m -> R w (snd (m w)).
Proof. intros H. apply H. Qed.

Ltac step :=
  lazymatch goal with
  | |- steps _ (bind (lift (derive_dates (date_input_returns _ (SingleValue _)))) _) =>
      apply steps_bind_lift; intros ? ?; discriminate
  | |- steps _ (bind (lift _) _) => apply steps_bind_lift; intros ? ?
  | |- steps _ (bind (st_sidebar_date_input _ _ _) _) =>
      apply steps_bind_date_input; [exact I|]
  | |- steps _ (bind _ _) => apply steps_bind; [|intros ?]
  | |- steps _ (ret _) => apply steps_ret
  | |- steps _ (fetch_and_draw _ _ _) => apply steps_fetch_and_draw; [|intros ?; exact I]
  | |- steps _ (st_slider _ _ _ _ _ _) => apply steps_slider; exact I
  | |- steps _ (st_radio _ _ _ _ _) => apply steps_radio; exact I
  | |- steps _ (st_checkbox _ _ _) => apply steps_checkbox; exact I
  | |- steps _ (st_selectbox _ _ _ _ _) => apply steps_selectbox; discriminate
  | |- steps _ (select_or_type _ _ _ _ _ _ _) =>
      apply steps_select_or_type; [intros ? ?; assumption | cbn; auto]
  | |- steps _ (get_occupations _ _) =>
      apply steps_get_occupations; [cbn; auto 10|]
  | |- steps _ (get_regions _ _ _) =>
      apply steps_get_regions; [cbn; auto 10 | apply level_of_cases |]
  | |- steps _ (if ?b then _ else _) => destruct b
  | |- steps _ (show _) => apply steps_show; exact I
  | |- steps _ (st_error _) => apply steps_show; exact I
  | |- steps _ (draw _ _) => apply steps_draw
  | |- steps _ (try_except _ _) => apply steps_try; [|intros ?]
  | |- steps _ (lift _) => apply steps_lift
  | |- steps _ (requests_get _ _ _) => apply steps_requests_get
  end.

(** A request with the dates of the session, or a lookup. *)
Ltac dated Hd :=
  let d0 := fresh "d0" in
  let d1 := fresh "d1" in
  let Hs := fresh "Hs" in
  intros _ d0 d1 Hs;
  first
    [ left; first [ left; reflexivity | right; eexists; reflexivity ]
    | right; rewrite (derive_dates_full _ _ _ _ Hs Hd); cbn [fst snd];
      unfold carries_dates; cbn [params];
      rewrite ?with_category_other by discriminate;
      apply with_dates_full ].

Ltac request_ok Hd :=
  split_and!; [ reflexivity | cbn; tauto | first [ dated Hd | intros Hne; now contradiction Hne ] ].

Lemma Jobs_advance (s : session) (w : world) :
  advance (page_request Jobs (api_base w) s JNull) page_element
    (page_entry Jobs (api_base w)) w (run Jobs s w).
Proof.
  unfold run, script, Jobs_page. rewrite bind_api_base.
  generalize (api_base w) as base. intros base. apply steps_run.
  repeat step; request_ok H.
Qed.

Lemma Skills_advance (s : session) (w : world) :
  advance (page_request Skills (api_base w) s JNull) page_element
    (page_entry Skills (api_base w)) w (run Skills s w).
Proof.
  unfold run, script, Skills_page. rewrite bind_api_base.
  generalize (api_base w) as base. intros base. apply steps_run.
  repeat step; request_ok H.
Qed.

Lemma Heatmaps_advance (s : session) (w : world) :
  advance (page_request Heatmaps (api_base w) s JNull) page_element
    (page_entry Heatmaps (api_base w)) w (run Heatmaps s w).
Proof.
  unfold run, script, Heatmaps_page, skills_heatmap_params. rewrite bind_api_base.
  generalize (api_base w) as base. intros base. apply steps_run.
  repeat step; request_ok H.
Qed.

Lemma JobTypes_advance (s : session) (w : world) :
  advance (page_request JobTypes (api_base w) s JNull) page_element
    (page_entry JobTypes (api_base w)) w (run JobTypes s w).
Proof.
  unfold run, script, JobTypes_page. rewrite bind_api_base.
  generalize (api_base w) as base. intros base. apply steps_run.
  repeat step; request_ok H.
Qed.

Lemma Home_advance (s : session) (w : world) :
  advance (page_request Home (api_base w) s JNull) page_element
    (page_entry Home (api_base w)) w (run Home s w).
Proof.
  unfold run, script, Home_page, quick_stats, quick_stat, check_api_connection, health_url.
  rewrite bind_api_base.
  generalize (api_base w) as base. intros base. apply steps_run.
  repeat step; request_ok H.
Qed.

(** On the two pages that put the selection in a path, the part of the
    script before the selection asks only for fixed paths. *)
Lemma select_then_advance {X A B} (Pf : X -> request -> Prop) (Q : element -> Prop)
    (E : backend -> Z -> (page -> string -> string) ->
         string * list string -> cache_entry -> Prop)
    (m : M A) (k : A -> M B) (x0 : X) :
  steps (advance (fun r => forall x, Pf x r) Q E) m ->
  (forall a w, exists x, advance (Pf x) Q E w (snd (k a w))) ->
  forall w, exists x, advance (Pf x) Q E w (snd (bind m k w)).
Proof.
  intros Hm Hk w. unfold bind. specialize (Hm w).
  destruct (m w) as [[a|e] w1]; cbn in *.
  - destruct (Hk a w1) as [x Hx]. exists x.
    eapply advance_trans; [|exact Hx].
    eapply advance_mono; [|exact Hm]. auto.
  - exists x0. eapply advance_mono; [|exact Hm]. auto.
Qed.

Lemma select_or_type_run (s : session) (sb : bool) (l : option (list json))
    (label key fallback_label fallback : string) (w : world) :
  select_or_type s sb l label key fallback_label fallback w =
    (Ok (chosen s l key fallback_label fallback),
     with_screen w
       (screen w ++ [if lookup_truthy l then Selectbox sb label (options_of l)
                     else TextInput sb fallback_label fallback])).
Proof. unfold select_or_type, chosen. destruct (lookup_truthy l); reflexivity. Qed.

(** The rest of the script runs with the value chosen. *)
Lemma steps_bind_select_or_type {B} (P : request -> Prop) (Q : element -> Prop)
    (E : backend -> Z -> (page -> string -> string) ->
         string * list string -> cache_entry -> Prop)
    (s : session) (sb : bool) (l : option (list json))
    (label key fallback_label fallback : string) (k : json -> M B) :
  (forall o, o <> [] -> Q (Selectbox sb label o)) ->
  Q (TextInput sb fallback_label fallback) ->
  steps (advance P Q E) (k (chosen s l key fallback_label fallback)) ->
  steps (advance P Q E) (bind (select_or_type s sb l label key fallback_label fallback) k).
Proof.
  intros Hs Ht Hk w.
  pose proof (steps_select_or_type P Q E s sb l label key fallback_label fallback Hs Ht w)
    as Hstep.
  unfold bind. rewrite select_or_type_run in *. cbn [fst snd] in *.
  eapply advance_trans; [exact Hstep | apply Hk].
Qed.

Lemma Regions_advance (s : session) (w : world) :
  exists regions,
    advance (page_request Regions (api_base w) s
               (chosen s regions "Select Region" "Enter Region" "Attiki"))
      page_element (page_entry Regions (api_base w)) w (run Regions s w).
Proof.
  unfold run, script, Regions_page. rewrite bind_api_base.
  generalize (api_base w) as base. intros base. revert w.
  apply select_then_advance; [exact None | step |]. intros region_level.
  apply select_then_advance; [exact None | step; intros regions; request_ok H |].
  intros regions w. exists regions. apply steps_run.
  apply steps_bind_select_or_type; [intros ? ?; assumption | cbn; auto |].
  repeat step; request_ok H.
Qed.

Lemma Occupations_advance (s : session) (w : world) :
  exists occupations,
    advance (page_request Occupations (api_base w) s
               (chosen s occupations "Select Occupation" "Enter Occupation"
                  "Software Developer"))
      page_element (page_entry Occupations (api_base w)) w (run Occupations s w).
Proof.
  unfold run, script, Occupations_page, occupation_trend. rewrite bind_api_base.
  generalize (api_base w) as base. intros base. revert w.
  apply select_then_advance; [exact None | step; intros occupations; request_ok H |].
  intros occupations w. exists occupations. apply steps_run.
  apply steps_bind_select_or_type; [intros ? ?; assumption | cbn; auto |].
  repeat step; request_ok H.
Qed.

(** Every run of every page: its requests, its lookup widgets and the
    entries it leaves in the store. *)
Lemma script_advance (p : page) (s : session) (w : world) :
  exists selected,
    selection p s selected /\
    advance (page_request p (api_base w) s selected) page_element
      (page_entry p (api_base w)) w (run p s w).
Proof.
  destruct p.
  - exists JNull. split; [exact I | apply Home_advance].
  - exists JNull. split; [exact I | apply Jobs_advance].
  - destruct (Occupations_advance s w) as [occupations H].
    eexists. split; [exists occupations; reflexivity | exact H].
  - destruct (Regions_advance s w) as [regions H].
    eexists. split; [exists regions; reflexivity | exact H].
  - exists JNull. split; [exact I | apply Skills_advance].
  - exists JNull. split; [exact I | apply Heatmaps_advance].
  - exists JNull. split; [exact I | apply JobTypes_advance].
Qed.

Lemma requests_of_advance (P : request -> Prop) (Q : element -> Prop)
    (E : backend -> Z -> (page -> string -> string) ->
         string * list string -> cache_entry -> Prop)
    (p : page) (s : session) (w : world) :
  advance P Q E w (run p s w) ->
  log (run p s w) = log w ++ requests_of p s w /\ Forall P (requests_of p s w).
Proof.
  intros [_ (l & Hl & HP) _ _ _]. unfold requests_of.
  rewrite Hl, drop_app_length. auto.
Qed.

(** ** The requests of a page *)

(** C7.  Every request a page issues is a GET. *)
Theorem C7_every_request_is_a_get (p : page) (s : session) (w : world) :
  Forall (fun r => method r = GET) (requests_of p s w).
Proof.
  destruct (script_advance p s w) as (selected & _ & H).
  apply requests_of_advance in H. destruct H as [_ H].
  eapply Forall_impl; [exact H|]. intros r Hr. apply Hr.
Qed.

(** C2, as stated, fails: on the Regions page the selected region is part
    of three paths, so two selections ask for different URLs. *)
Lemma C2_counterexample :
  ~ (forall p s1 s2 w, same_endpoints (requests_of p s1 w) (requests_of p s2 w)).
Proof.
  intros H.
  specialize (H Regions (quiet_session may_to_june) (second_choice may_to_june)
                (cold_world steady_server)
                (endpoint_of "http://localhost:8000" "/api/regions/" (JStr "Attiki")
                   "/occupations")).
  destruct H as [H _].
  assert (Hin : In (endpoint_of "http://localhost:8000" "/api/regions/" (JStr "Attiki")
                      "/occupations")
                  (map url (requests_of Regions (quiet_session may_to_june)
                              (cold_world steady_server)))).
  { vm_compute. tauto. }
  specialize (H Hin). vm_compute in H.
  repeat (destruct H as [H|H]; [discriminate H|]). exact H.
Qed.

(** C2, amended.  Every request of a page goes to one of the page's
    endpoint templates, filled with the region or occupation selected in
    the run; on every page but Occupations and Regions the templates are
    fixed paths, the same whatever is selected. *)
Theorem C2_endpoint_templates (p : page) (s : session) (w : world) :
  (exists selected,
     selection p s selected /\
     Forall (fun r => In (url r) (page_urls p (api_base w) selected)) (requests_of p s w)) /\
  (p <> Occupations -> p <> Regions ->
   fixed_paths p /\
   forall sel1 sel2, page_urls p (api_base w) sel1 = page_urls p (api_base w) sel2).
Proof.
  split.
  - destruct (script_advance p s w) as (selected & Hsel & H). exists selected.
    split; [exact Hsel|].
    apply requests_of_advance in H. destruct H as [_ H].
    eapply Forall_impl; [exact H|]. intros r Hr. apply Hr.
  - intros Ho Hr. destruct p; try contradiction;
      (split; [repeat constructor | reflexivity]).
Qed.

Lemma C2_endpoint_templates_witness :
  fixed_paths Skills /\
  page_urls Skills "http://localhost:8000" (JStr "Nurse")
  = page_urls Skills "http://localhost:8000" (JStr "Cook").
Proof.
  destruct (C2_endpoint_templates Skills (quiet_session may_to_june)
              (cold_world steady_server)) as [_ H].
  destruct (H ltac:(discriminate) ltac:(discriminate)) as [Hf He].
  split; [exact Hf | exact (He (JStr "Nurse") (JStr "Cook"))].
Defined.

(** ** The date range in the queries *)




Lemma st_radio_never_raises (s : session) (sb : bool) (label : string)
    (options : list string) (key : string) :
  never_raises (st_radio s sb label options key).
Proof. intros w. eexists. reflexivity. Qed.

Lemma derive_dates_range_dates (s : session) :
  derive_dates (date_input_returns s RangeValue) = Ok (range_dates s).
Proof.
  unfold date_input_returns, range_dates.
  destruct (picked s) as [|d0 [|d1 ds]]; reflexivity.
Qed.

Lemma nr_ret {A} (a : A) : never_raises (ret a).
Proof. intros w. eexists. reflexivity. Qed.

Lemma nr_show (e : element) : never_raises (show e).
Proof. intros w. eexists. reflexivity. Qed.

Lemma nr_getenv (name default : string) : never_raises (os_getenv name default).
Proof. intros w. eexists. reflexivity. Qed.

Lemma nr_bind {A B} (m : M A) (k : A -> M B) :
  never_raises m -> (forall a, never_raises (k a)) -> never_raises (bind m k).
Proof.
  intros Hm Hk w. unfold bind. destruct (Hm w) as [a Ha].
  destruct (m w) as [[a'|e] w']; cbn in Ha; [apply Hk | discriminate].
Qed.

Lemma nr_bind_lift {A B} (a : A) (k : A -> M B) :
  never_raises (k a) -> never_raises (bind (lift (Ok a)) k).
Proof. intros Hk w. apply Hk. Qed.

Lemma nr_bind_date_input {B} (s : session) (label : string) (value : date_input_value)
    (k : date_value -> M B) :
  never_raises (k (date_input_returns s value)) ->
  never_raises (bind (st_sidebar_date_input s label value) k).
Proof. intros Hk w. apply Hk. Qed.

(** A [try] whose handler completes, completes. *)
Lemma nr_try {A} (body : M A) (handler : exn -> M A) :
  (forall e, never_raises (handler e)) -> never_raises (try_except body handler).
Proof.
  intros Hh w. unfold try_except.
  destruct (body w) as [[a|e] w']; [eexists; reflexivity | apply Hh].
Qed.

Lemma nr_slider (s : session) (label : string) (lo hi default : Z) (key : string) :
  never_raises (st_slider s label lo hi default key).
Proof. intros w. eexists. reflexivity. Qed.

Lemma nr_checkbox (s : session) (label : string) (value : bool) :
  never_raises (st_checkbox s label value).
Proof. intros w. eexists. reflexivity. Qed.

Lemma nr_selectbox (s : session) (sb : bool) (label : string) (options : list json)
    (key : string) :
  never_raises (st_selectbox s sb label options key).
Proof. intros w. eexists. reflexivity. Qed.

Lemma nr_fetch_and_draw (tab : string) (u : fstring) (ps : list (string * json)) :
  never_raises (fetch_and_draw tab u ps).
Proof. apply nr_try. intros e. apply nr_show. Qed.

Ltac completes :=
  lazymatch goal with
  | |- never_raises (bind (lift (derive_dates (date_input_returns _ RangeValue))) _) =>
      rewrite derive_dates_range_dates; apply nr_bind_lift
  | |- never_raises (bind (st_sidebar_date_input _ _ _) _) => apply nr_bind_date_input
  | |- never_raises (bind _ _) => apply nr_bind; [|intros ?]
  | |- never_raises (ret _) => apply nr_ret
  | |- never_raises (show _) => apply nr_show
  | |- never_raises (fetch_and_draw _ _ _) => apply nr_fetch_and_draw
  | |- never_raises (try_except _ _) => apply nr_try; intros ?
  | |- never_raises (st_error _) => apply nr_show
  | |- never_raises (st_slider _ _ _ _ _ _) => apply nr_slider
  | |- never_raises (st_radio _ _ _ _ _) => apply st_radio_never_raises
  | |- never_raises (st_checkbox _ _ _) => apply nr_checkbox
  | |- never_raises (st_selectbox _ _ _ _ _) => apply nr_selectbox
  | |- never_raises (select_or_type _ _ _ _ _ _ _) => apply select_or_type_never_raises
  | |- never_raises (get_occupations _ _) => apply get_occupations_never_raises
  | |- never_raises (get_regions _ _ _) => apply get_regions_never_raises
  | |- never_raises (os_getenv _ _) => apply nr_getenv
  | |- never_raises API_BASE_URL => apply nr_getenv
  | |- never_raises (if ?b then _ else _) => destruct b
  end.


(** *** Requests that are sure to be sent *)














Lemma lookup_request_without_dates :
  ~ Forall (carries_dates {| year := 2025; month := 5; day := 1 |}
                          {| year := 2025; month := 6; day := 30 |})
      (requests_of Occupations (quiet_session may_to_june) (cold_world steady_server)).
Proof.
  intros H. apply Forall_inv in H. destruct H as [H _]. vm_compute in H. discriminate H.
Qed.



(** ** The store across visits *)

Lemma browse_entries (env : string -> option string) (fk : page -> string -> string)
    (visits : list visit) (store : gmap (string * list string) cache_entry)
    (k : string * list string) (e : cache_entry) :
  browse env fk visits store !! k = Some e ->
  store !! k = Some e \/
  exists v, In v visits /\
    page_entry (visit_page v) (env_base env) (visit_server v) (visit_clock v) fk k e.
Proof.
  revert store. induction visits as [|v rest IH]; intros store H; cbn in H.
  - now left.
  - destruct (IH _ H) as [Hrun | (v' & Hin & He)].
    + destruct (script_advance (visit_page v) (visit_session v) (arrive env fk v store))
        as (selected & _ & Hadv).
      destruct (adv_cache _ _ _ _ _ Hadv k e Hrun) as [Hold | Hnew].
      * now left.
      * right. exists v. split; [now left | exact Hnew].
    + right. exists v'. split; [now right | exact He].
Qed.

(** A live entry is returned as it is, without running the function. *)
Lemma cache_data_hit (ttl : Z) (p : page) (name : string) (args : list string)
    (f : M (option (list json))) (w : world) (entry : cache_entry) :
  cache w !! (function_key w p name, args) = Some entry ->
  clock w < expires entry ->
  cache_data ttl p name args f w = (Ok (cached_value entry), w).
Proof.
  intros Hk Hlive. unfold cache_data. rewrite Hk.
  destruct (Z.ltb_spec (clock w) (expires entry)); [reflexivity | lia].
Qed.

(** Without an entry, or with an expired one, the function runs and its
    answer is stored for [ttl] seconds. *)
Lemma cache_data_refresh (ttl : Z) (p : page) (name : string) (args : list string)
    (f : M (option (list json))) (w w' : world) (v : option (list json)) :
  (cache w !! (function_key w p name, args) = None \/
   exists entry, cache w !! (function_key w p name, args) = Some entry /\
                 expires entry <= clock w) ->
  f w = (Ok v, w') ->
  cache_data ttl p name args f w =
    (Ok v, with_cache w'
             (<[(function_key w p name, args) :=
                  {| cached_value := v; expires := clock w' + ttl |}]> (cache w'))).
Proof.
  intros Hk Hf. unfold cache_data. rewrite Hf.
  destruct Hk as [-> | (entry & -> & Hdead)]; [reflexivity|].
  destruct (Z.ltb_spec (clock w) (expires entry)); [lia | reflexivity].
Qed.

(** The Skills page seen again within the hour asks for no lookup; seen
    again an hour later it asks for both. *)
Example Skills_page_within_the_hour :
  map url
    (requests_of Skills (quiet_session may_to_june)
       (arrive (fun _ => None) (fun _ name => name)
          (visit_of Skills (quiet_session may_to_june) 3599)
          (browse (fun _ => None) (fun _ name => name)
             [visit_of Skills (quiet_session may_to_june) 0] ∅)))
  = [endpoint "http://localhost:8000" "/api/skills/top";
     endpoint "http://localhost:8000" "/api/skills/by-occupation/detailed";
     endpoint "http://localhost:8000" "/api/skills/by-region"].
Proof. vm_compute. reflexivity. Qed.

Example Skills_page_an_hour_later :
  map url
    (requests_of Skills (quiet_session may_to_june)
       (arrive (fun _ => None) (fun _ name => name)
          (visit_of Skills (quiet_session may_to_june) 3600)
          (browse (fun _ => None) (fun _ name => name)
             [visit_of Skills (quiet_session may_to_june) 0] ∅)))
  = [endpoint "http://localhost:8000" "/api/skills/top";
     endpoint "http://localhost:8000" "/api/occupations/demand";
     endpoint "http://localhost:8000" "/api/skills/by-occupation/detailed";
     endpoint "http://localhost:8000" "/api/regions/jobs";
     endpoint "http://localhost:8000" "/api/skills/by-region"].
Proof. vm_compute. reflexivity. Qed.

(** C4, as stated, fails: the regions helper is memoised per region level,
    so after the Skills page was seen at both levels the store holds three
    lists. *)
Lemma C4_counterexample :
  ~ (forall env fk visits, (size (browse env fk visits ∅) <= 2)%nat).
Proof.
  intros H.
  specialize (H (fun _ => None) (fun _ name => name)
                [visit_of Skills (quiet_session may_to_june) 0;
                 visit_of Skills (second_choice may_to_june) 60]).
  vm_compute in H. lia.
Qed.

(** C4, amended.  Between runs only the [st.cache_data] store is kept.
    Every entry in it was written by a visit of a page that defines the
    helper, expires 3600 seconds after that visit, and holds what the helper
    made of its request: the occupations list from
    [/api/occupations/demand] with [top_n=200], or, for one region level,
    the regions list from [/api/regions/jobs] with that [region_level] and
    [top_n=100]. *)
Theorem C4_cached_lookups (env : string -> option string) (fk : page -> string -> string)
    (visits : list visit) (k : string * list string) (e : cache_entry) :
  browse env fk visits ∅ !! k = Some e ->
  exists v, In v visits /\
    let p := visit_page v in
    let base := env_base env in
    expires e = visit_clock v + 3600 /\
    ((In p [Occupations; Skills; Heatmaps; JobTypes] /\
      k = (fk p "get_occupations", []) /\
      exists n, cached_value e
                = labels_result "esco_label"
                    (visit_server v n
                       {| method := GET; url := endpoint base "/api/occupations/demand";
                          params := [("top_n", JInt 200)]; timeout := None |}))
     \/
     (In p [Regions; Skills] /\
      exists level, In level ["nuts2"; "regional_unit"] /\
        k = (fk p "get_regions", [level]) /\
        exists n, cached_value e
                  = labels_result "region"
                      (visit_server v n
                         {| method := GET; url := endpoint base "/api/regions/jobs";
                            params := [("region_level", JStr level); ("top_n", JInt 100)];
                            timeout := None |}))).
Proof.
  intros H. destruct (browse_entries env fk visits ∅ k e H) as [Hempty | (v & Hin & He)].
  - rewrite lookup_empty in Hempty. discriminate.
  - exists v. split; [exact Hin | exact He].
Qed.

Lemma C4_cached_lookups_witness :
  exists v,
    In v [visit_of Skills (quiet_session may_to_june) 0;
          visit_of Skills (second_choice may_to_june) 60] /\
    visit_page v = Skills /\
    60 + 3600 = visit_clock v + 3600.
Proof.
  destruct (C4_cached_lookups (fun _ => None) (fun _ name => name)
              [visit_of Skills (quiet_session may_to_june) 0;
               visit_of Skills (second_choice may_to_june) 60]
              ("get_regions", ["regional_unit"])
              {| cached_value := Some [JStr "Attiki"; JStr "Kriti"]; expires := 60 + 3600 |}
              ltac:(vm_compute; reflexivity))
    as (v & Hin & Hexp & _).
  exists v. split; [exact Hin|].
  destruct Hin as [<- | [<- | []]]; cbn in Hexp; [discriminate Hexp|].
  split; [reflexivity | exact Hexp].
Defined.

(** ** The lookup helpers and their fallback *)

Lemma labels_of_rows (key : string) (labels : list json) :
  labels_of (JObj [("data", JList (map (fun l => JObj [(key, l)]) labels))]) key = Ok labels.
Proof.
  unfold labels_of. cbn [getitem assoc String.eqb Ascii.eqb Bool.eqb res_bind iterate].
  induction labels as [|l labels IH]; [reflexivity|].
  cbn [map map_res getitem assoc res_bind]. rewrite String.eqb_refl. cbn [res_bind].
  now rewrite IH.
Qed.


(** With the backend down, the Occupations and Regions pages ask for the
    selection in a text box. *)
Example Occupations_page_backend_down :
  screen (run Occupations (quiet_session may_to_june) (cold_world dead_server))
  = [TextInput true "Enter Occupation" "Software Developer";
     DateInput true "Date Range" RangeValue;
     Radio false "Region Level" ["NUTS2"; "Regional Unit"];
     ErrorBox RequestException; ErrorBox RequestException;
     Radio false "Region Level" ["NUTS2"; "Regional Unit"];
     Slider "Top N Regions" 5 30 15; ErrorBox RequestException;
     Slider "Number of skills to show" 10 50 20; ErrorBox RequestException].
Proof. vm_compute. reflexivity. Qed.

Example Regions_page_backend_down :
  hd_error (skipn 1 (screen (run Regions (quiet_session may_to_june) (cold_world dead_server))))
  = Some (TextInput true "Enter Region" "Attiki").
Proof. vm_compute. reflexivity. Qed.

Example Regions_page_backend_up :
  hd_error (skipn 1 (screen (run Regions (quiet_session may_to_june) (cold_world steady_server))))
  = Some (Selectbox true "Select Region" [JStr "Attiki"; JStr "Kriti"]).
Proof. vm_compute. reflexivity. Qed.

(** *** The answer of a lookup and the widget made of it *)

Lemma advance_weaken (P P' : request -> Prop) (Q Q' : element -> Prop)
    (E : backend -> Z -> (page -> string -> string) ->
         string * list string -> cache_entry -> Prop) (w w' : world) :
  (forall r, P r -> P' r) -> (forall e, Q e -> Q' e) ->
  advance P Q E w w' -> advance P' Q' E w w'.
Proof.
  intros HP HQ [F (l & L & HL) (sc & S & HS) C V]. constructor; try assumption.
  - exists l. split; [assumption|]. eapply Forall_impl; [exact HL | exact HP].
  - exists sc. split; [assumption|]. eapply Forall_impl; [exact HS | exact HQ].
Qed.

Lemma filter_none (K : element -> bool) (l : list element) :
  Forall (fun e => K e = false) l -> List.filter K l = [].
Proof.
  induction 1 as [|e l He _ IH]; [reflexivity|]. cbn. now rewrite He.
Qed.

Lemma shown_since_app (w w' : world) (l : list element) :
  screen w' = screen w ++ l -> shown_since w w' = l.
Proof. intros H. unfold shown_since. now rewrite H, drop_app_length. Qed.

(** What a fragment shows, seen from an earlier world. *)
Lemma shown_since_trans (K : element -> bool) (w w1 w' : world) (l1 : list element) :
  screen w1 = screen w ++ l1 -> Forall (fun e => K e = false) l1 ->
  (exists l, screen w' = screen w1 ++ l) ->
  List.filter K (shown_since w w') = List.filter K (shown_since w1 w').
Proof.
  intros H1 HK (l & H). rewrite (shown_since_app w1 w' l H).
  rewrite (shown_since_app w w' (l1 ++ l)) by (rewrite H, H1; apply eq_sym, app_assoc).
  rewrite List.filter_app, (filter_none K l1 HK). reflexivity.
Qed.

(** A decorated helper returns what is then live in the store under its
    key. *)
Lemma cache_data_returns_live (ttl : Z) (p : page) (name : string) (args : list string)
    (f : M (option (list json))) (w : world) :
  0 < ttl ->
  (exists v w1, f w = (Ok v, w1) /\ clock w1 = clock w) ->
  exists entry,
    fst (cache_data ttl p name args f w) = Ok (cached_value entry) /\
    cache (snd (cache_data ttl p name args f w)) !! (function_key w p name, args)
    = Some entry /\
    clock w < expires entry.
Proof.
  intros Httl (v & w1 & Hf & Hclock).
  destruct (cache w !! (function_key w p name, args)) as [entry|] eqn:Hk.
  - destruct (Z.lt_ge_cases (clock w) (expires entry)) as [Hlive|Hdead].
    + exists entry. rewrite (cache_data_hit ttl p name args f w entry Hk Hlive).
      cbn. auto.
    + exists {| cached_value := v; expires := clock w1 + ttl |}.
      rewrite (cache_data_refresh ttl p name args f w w1 v) by eauto.
      cbn. rewrite lookup_insert_eq. split_and!; [reflexivity | reflexivity | lia].
  - exists {| cached_value := v; expires := clock w1 + ttl |}.
    rewrite (cache_data_refresh ttl p name args f w w1 v) by eauto.
    cbn. rewrite lookup_insert_eq. split_and!; [reflexivity | reflexivity | lia].
Qed.

Section Tied.
Variable K : element -> bool.
Variable widget : option (list json) -> element.
Variable key : (page -> string -> string) -> string * list string.
Variable P : option (list json) -> request -> Prop.
Variable E : backend -> Z -> (page -> string -> string) ->
             string * list string -> cache_entry -> Prop.

Abbreviation quiet := (advance (fun r => forall l, P l r) (fun e => K e = false) E).

(** The tie holds of a script when it holds of what follows a step that
    cannot raise and shows no widget of the kind. *)
Lemma tied_after {A B} (m : M A) (k : A -> M B) :
  never_raises m -> steps quiet m ->
  (forall a, steps (tied K widget key P E) (k a)) ->
  steps (tied K widget key P E) (bind m k).
Proof.
  intros Hnr Hm Hk w. unfold bind. destruct (Hnr w) as [a Ha]. specialize (Hm w).
  destruct (m w) as [[a'|e] w1]; cbn in *; [|discriminate].
  destruct (Hk a' w1) as (entry & Hc & Hlive & Hadv & Hshown).
  pose proof (adv_frame _ _ _ _ _ Hm) as (_ & Fc & _ & Ff & _).
  destruct (adv_screen _ _ _ _ _ Hm) as (l1 & S1 & HK1).
  exists entry. split_and!.
  - now rewrite <- Ff.
  - now rewrite <- Fc.
  - eapply advance_trans; [|exact Hadv].
    eapply advance_weaken; [| |exact Hm]; cbn; auto.
  - rewrite (shown_since_trans K w w1 _ l1 S1 HK1); [exact Hshown|].
    destruct (adv_screen _ _ _ _ _ Hadv) as (l & S & _). eauto.
Qed.

(** The same after a widget, with the value the widget holds. *)
Lemma tied_after_widget {A B} (m : M A) (k : A -> M B) (e : element) (a : A) :
  (forall w, m w = (Ok a, with_screen w (screen w ++ [e]))) ->
  K e = false ->
  steps (tied K widget key P E) (k a) ->
  steps (tied K widget key P E) (bind m k).
Proof.
  intros Hm He Hk w. unfold bind. rewrite Hm.
  destruct (Hk (with_screen w (screen w ++ [e]))) as (entry & Hc & Hlive & Hadv & Hshown).
  exists entry. split_and!; try assumption.
  - eapply advance_trans; [|exact Hadv]. apply steps_show. exact I.
  - rewrite (shown_since_trans K w (with_screen w (screen w ++ [e])) _ [e]);
      [exact Hshown | reflexivity | now constructor |].
    destruct (adv_screen _ _ _ _ _ Hadv) as (l & S & _). eauto.
Qed.

Lemma tied_after_lift {A B} (a : A) (k : A -> M B) :
  steps (tied K widget key P E) (k a) ->
  steps (tied K widget key P E) (bind (lift (Ok a)) k).
Proof. intros Hk w. apply Hk. Qed.

End Tied.

(** The tie itself: the helper's answer is live in the store, the choice
    shows the widget made of it, and the rest of the script, which runs
    with the value chosen, shows no other. *)
Lemma tied_lookup {B} (K : element -> bool) (P : option (list json) -> request -> Prop)
    (E : backend -> Z -> (page -> string -> string) ->
         string * list string -> cache_entry -> Prop)
    (ttl : Z) (p : page) (name : string) (args : list string)
    (f : M (option (list json)))
    (s : session) (sb : bool) (label key fallback_label fallback : string)
    (k : json -> M B) :
  0 < ttl ->
  (forall l, K (lookup_widget sb label fallback_label fallback l) = true) ->
  (forall w, exists v w1, f w = (Ok v, w1) /\ clock w1 = clock w) ->
  steps (advance (fun r => forall l, P l r) (fun e => K e = false) E)
    (cache_data ttl p name args f) ->
  (forall l, steps (advance (P l) (fun e => K e = false) E)
               (k (chosen s l key fallback_label fallback))) ->
  steps (tied K (lookup_widget sb label fallback_label fallback)
           (fun fk => (fk p name, args)) P E)
    (bind (cache_data ttl p name args f)
       (fun l => bind (select_or_type s sb l label key fallback_label fallback) k)).
Proof.
  intros Httl HK Hf Hh Hk w.
  destruct (cache_data_returns_live ttl p name args f w Httl (Hf w))
    as (entry & Hret & Hc & Hlive).
  specialize (Hh w). unfold bind at 1.
  destruct (cache_data ttl p name args f w) as [r w1]. cbn [fst snd] in *. subst r.
  unfold bind. rewrite select_or_type_run.
  fold (lookup_widget sb label fallback_label fallback (cached_value entry)).
  set (e := lookup_widget sb label fallback_label fallback (cached_value entry)).
  set (w2 := with_screen w1 (screen w1 ++ [e])).
  specialize (Hk (cached_value entry) w2).
  pose proof (adv_frame _ _ _ _ _ Hh) as (_ & Fc & _ & Ff & _).
  destruct (adv_screen _ _ _ _ _ Hh) as (l1 & S1 & HK1).
  destruct (adv_screen _ _ _ _ _ Hk) as (l3 & S3 & HK3).
  exists entry. split_and!.
  - apply (adv_live _ _ _ _ _ Hk); [exact Hc|]. cbn. now rewrite Fc.
  - exact Hlive.
  - eapply advance_trans; [eapply advance_weaken; [| |exact Hh]; cbn; auto|].
    eapply advance_trans; [apply (steps_show _ _ _ e I w1)|].
    eapply advance_weaken; [| |exact Hk]; cbn; auto.
  - rewrite (shown_since_app w _ (l1 ++ [e] ++ l3)).
    + rewrite !List.filter_app, (filter_none K l1 HK1), (filter_none K l3 HK3).
      cbn. subst e. now rewrite HK.
    + rewrite S3. subst w2. cbn [screen with_screen]. rewrite S1.
      now rewrite <- !app_assoc.
Qed.

(** Fragments that show no widget of a kind, step by step. *)
Ltac qstep :=
  lazymatch goal with
  | |- steps _ (bind (lift _) _) => apply steps_bind_lift; intros ? ?
  | |- steps _ (bind (st_sidebar_date_input _ _ _) _) =>
      apply steps_bind_date_input; [reflexivity|]
  | |- steps _ (bind _ _) => apply steps_bind; [|intros ?]
  | |- steps _ (ret _) => apply steps_ret
  | |- steps _ (fetch_and_draw _ _ _) => apply steps_fetch_and_draw; [|intros ?; reflexivity]
  | |- steps _ (st_slider _ _ _ _ _ _) => apply steps_slider; reflexivity
  | |- steps _ (st_radio _ _ _ _ _) => apply steps_radio; reflexivity
  | |- steps _ (st_checkbox _ _ _) => apply steps_checkbox; reflexivity
  | |- steps _ (select_or_type _ _ _ _ _ _ _) =>
      apply steps_select_or_type; [intros ? ?; reflexivity | reflexivity]
  | |- steps _ (get_occupations _ _) => apply steps_get_occupations; [cbn; auto 10|]
  | |- steps _ (get_regions _ _ _) =>
      apply steps_get_regions; [cbn; auto 10 | apply level_of_cases |]
  | |- steps _ (if ?b then _ else _) => destruct b
  | |- steps _ (show _) => apply steps_show; reflexivity
  | |- steps _ (st_error _) => apply steps_show; reflexivity
  | |- steps _ (draw _ _) => apply steps_draw
  | |- steps _ (try_except _ _) => apply steps_try; [|intros ?]
  | |- steps _ (lift _) => apply steps_lift
  | |- steps _ (requests_get _ _ _) => apply steps_requests_get
  end.

(** A step on the way to the lookup; [req] settles the requests. *)
Ltac tie_before req :=
  lazymatch goal with
  | |- steps _ (bind (lift (derive_dates (date_input_returns _ RangeValue))) _) =>
      rewrite derive_dates_range_dates; apply tied_after_lift
  | |- steps _ (bind (st_sidebar_date_input ?s ?label ?value) _) =>
      apply (tied_after_widget _ _ _ _ _ _ _ (DateInput true label value)
               (date_input_returns s value));
      [intros ?; reflexivity | reflexivity |]
  | |- steps _ (bind (st_radio ?s ?sb ?label ?options ?key) _) =>
      apply (tied_after_widget _ _ _ _ _ _ _ (Radio sb label options)
               (nth (radio_choice s key) options (hd "" options)));
      [intros ?; reflexivity | reflexivity |]
  | |- steps _ (bind _ _) =>
      apply tied_after; [repeat completes | repeat qstep; req | intros ?]
  end.

(** The lookup and the choice. *)
Ltac tie_here req :=
  unfold occupation_choice, region_choice, occupations_key, regions_key;
  lazymatch goal with
  | |- steps _ (bind (get_occupations ?p ?b) _) =>
      apply (tied_lookup _ _ _ 3600 p "get_occupations" [] (get_occupations_body b))
  | |- steps _ (bind (get_regions ?p ?b ?level) _) =>
      apply (tied_lookup _ _ _ 3600 p "get_regions" [level] (get_regions_body b level))
  end;
  [ lia
  | intros l; unfold lookup_widget; destruct (lookup_truthy l); reflexivity
  | intros w0;
    first [ rewrite get_occupations_body_run | rewrite get_regions_body_run ];
    eexists _, _; split; reflexivity
  | first [ apply steps_get_occupations; [cbn; auto 10 | req]
          | apply steps_get_regions; [cbn; auto 10 | apply level_of_cases | req] ]
  | intros l; repeat qstep; req ].


(** A request about the selection, whatever or whichever it is. *)
Ltac about_selection :=
  split;
  [ split; intros v Hv; cbn [params] in Hv;
    rewrite ?with_dates_other in Hv by discriminate;
    cbn in Hv; first [ discriminate Hv | injection Hv as <-; reflexivity ]
  | cbn; tauto ].

Ltac about_any := try intros ?; about_selection.

Lemma Occupations_tied (s : session) (w : world) :
  tied occupation_widget (occupation_choice true) (occupations_key Occupations)
    (fun l => asks_about Occupations (api_base w) (selected_from Occupations s l))
    (page_entry Occupations (api_base w)) w (run Occupations s w).
Proof.
  unfold run, script, Occupations_page, occupation_trend, selected_from.
  rewrite bind_api_base. generalize (api_base w) as base. intros base. apply steps_run.
  tie_here about_any.
Qed.

Lemma Regions_tied (s : session) (w : world) :
  tied region_widget (region_choice true) (regions_key Regions (level_chosen s))
    (fun l => asks_about Regions (api_base w) (selected_from Regions s l))
    (page_entry Regions (api_base w)) w (run Regions s w).
Proof.
  unfold run, script, Regions_page, selected_from, level_chosen.
  rewrite bind_api_base. generalize (api_base w) as base. intros base. apply steps_run.
  tie_before about_any.
  tie_here about_any.
Qed.








(** ** The health check of the home page *)

Lemma healthy_iff (o : outcome) :
  healthy o = true <-> exists r, o = Responds r /\ status_code r = 200.
Proof.
  destruct o as [e|r]; cbn.
  - split; [discriminate | intros (r & H & _); discriminate].
  - rewrite Z.eqb_eq. split.
    + intros H. now exists r.
    + intros (r' & H & Hs). now injection H as ->.
Qed.

Lemma check_api_connection_run (base : string) (w : world) :
  check_api_connection base w =
    (Ok (healthy (server w (length (log w)) (health_check base))),
     with_log w (log w ++ [health_check base])).
Proof.
  unfold check_api_connection, try_except, bind, requests_get, healthy.
  fold (health_check base).
  destruct (server w (length (log w)) (health_check base)); reflexivity.
Qed.

Lemma bind_check_api_connection {B} (base : string) (k : bool -> M B) (w : world) :
  bind (check_api_connection base) k w =
    k (healthy (server w (length (log w)) (health_check base)))
      (with_log w (log w ++ [health_check base])).
Proof. unfold bind. now rewrite check_api_connection_run. Qed.

(** The quick-stats block starts with the job count request, whatever
    comes back. *)
Lemma quick_stats_log (base : string) (w : world) :
  exists rest,
    log (snd (quick_stats base w)) = log w ++ jobs_count_request base :: rest.
Proof.
  unfold quick_stats, try_except.
  unfold quick_stat at 1. unfold bind at 1 2. unfold requests_get at 1.
  fold (jobs_count_request base).
  set (w1 := with_log w (log w ++ [jobs_count_request base])).
  assert (Hgrow : forall (m : M unit),
             steps (advance (fun _ => True) (fun _ => True) (fun _ _ _ _ _ => True)) m ->
             exists rest, log (snd (m w1)) = log w ++ jobs_count_request base :: rest).
  { intros m Hm. destruct (Hm w1) as [_ (l & Hl & _) _ _ _].
    exists l. rewrite Hl. unfold w1. cbn. now rewrite <- app_assoc. }
  destruct (server w (length (log w)) (jobs_count_request base)) as [e|r].
  - cbn. exists []. reflexivity.
  - match goal with
    | |- context [let (r0, w') := let (r1, w'') := ?c w1 in _ in _] =>
        destruct (Hgrow (try_except
                           (c ;;;
                            quick_stat (endpoint base "/api/occupations/demand")
                              [("top_n", JInt 100)] "Occupations Tracked" "count" [] ;;;
                            quick_stat (endpoint base "/api/regions/jobs")
                              [("region_level", JStr "nuts2"); ("top_n", JInt 100)]
                              "Regions (NUTS2)" "count" [] ;;;
                            quick_stat (endpoint base "/api/skills/top") [("top_n", JInt 100)]
                              "Skills Tracked" "count" [Text "+"])
                           (fun _ => ret tt))) as [rest Hrest]
    end.
    + unfold quick_stat. repeat step; exact I.
    + exists rest. rewrite <- Hrest. reflexivity.
Qed.

(** C10.  [check_api_connection] never raises and answers by the outcome of
    its one GET to [/health] (timeout 5): [True] on status 200, [False] on
    any other status and when the call raises.  The home page checks twice,
    and asks for the quick stats only when the second check said [True]. *)
Theorem C10_health_check_gates_quick_stats (s : session) (w : world) :
  let base := api_base w in
  let first := server w (length (log w)) (health_check base) in
  let second := server w (S (length (log w))) (health_check base) in
  check_api_connection base w
    = (Ok (healthy first), with_log w (log w ++ [health_check base])) /\
  (healthy first = true <-> exists r, first = Responds r /\ status_code r = 200) /\
  health_check base
    = {| method := GET; url := endpoint base "/health"; params := []; timeout := Some 5 |} /\
  exists rest,
    requests_of Home s w = health_check base :: health_check base :: rest /\
    (healthy second = false -> rest = []) /\
    (healthy second = true -> exists more, rest = jobs_count_request base :: more).
Proof.
  cbv zeta. split_and!.
  - apply check_api_connection_run.
  - apply healthy_iff.
  - reflexivity.
  - unfold requests_of, run, script, Home_page.
    rewrite bind_api_base. generalize (api_base w) as base. intros base.
    rewrite bind_check_api_connection.
    set (w1 := with_log w (log w ++ [health_check base])).
    set (first := healthy (server w (length (log w)) (health_check base))).
    assert (Hshow : forall (e : element) (k : bool -> M unit),
               ((show e ;;; connected <- check_api_connection base ;; k connected) w1)
               = k (healthy (server w (S (length (log w))) (health_check base)))
                   (with_log (with_screen w1 (screen w1 ++ [e]))
                             (log w ++ [health_check base; health_check base]))).
    { intros e k. unfold bind at 1. unfold show. cbn [fst snd].
      rewrite bind_check_api_connection. cbn [log with_screen w1 with_log].
      rewrite length_app, Nat.add_1_r, <- app_assoc. reflexivity. }
    assert (Hrun : forall (e : element),
               exists rest,
                 drop (length (log w))
                   (log (snd ((show e ;;; connected <- check_api_connection base ;;
                               if connected then quick_stats base else ret tt) w1)))
                 = health_check base :: health_check base :: rest /\
                 (healthy (server w (S (length (log w))) (health_check base)) = false ->
                  rest = []) /\
                 (healthy (server w (S (length (log w))) (health_check base)) = true ->
                  exists more, rest = jobs_count_request base :: more)).
    { intros e. rewrite Hshow.
      destruct (healthy (server w (S (length (log w))) (health_check base))).
      - destruct (quick_stats_log base
                    (with_log (with_screen w1 (screen w1 ++ [e]))
                       (log w ++ [health_check base; health_check base])))
          as [more Hmore].
        rewrite Hmore. cbn [log with_log]. rewrite <- app_assoc, drop_app_length.
        exists (jobs_count_request base :: more). split_and!; [reflexivity | discriminate | eauto].
      - cbn [ret snd log with_log]. rewrite drop_app_length.
        exists []. split_and!; [reflexivity | reflexivity | discriminate]. }
    destruct first; apply Hrun.
Qed.

Lemma C10_health_check_gates_quick_stats_witness :
  requests_of Home (quiet_session may_to_june) (cold_world dead_server)
  = [health_check "http://localhost:8000"; health_check "http://localhost:8000"].
Proof.
  destruct (C10_health_check_gates_quick_stats (quiet_session may_to_june)
              (cold_world dead_server)) as (_ & _ & _ & rest & Hreq & Hdown & _).
  rewrite Hreq. rewrite (Hdown eq_refl). reflexivity.
Defined.

(** With the backend up the home page goes on to its four metrics. *)
Example Home_page_backend_up :
  map url (requests_of Home (quiet_session may_to_june) (cold_world steady_server))
  = [endpoint "http://localhost:8000" "/health";
     endpoint "http://localhost:8000" "/health";
     endpoint "http://localhost:8000" "/api/jobs/count";
     endpoint "http://localhost:8000" "/api/occupations/demand";
     endpoint "http://localhost:8000" "/api/regions/jobs";
     endpoint "http://localhost:8000" "/api/skills/top"].
Proof. vm_compute. reflexivity. Qed.

(** ** The date block on the Job Types page *)

(** C1.  The Job Types page gives its date input the single
    [datetime(2025, 5, 1)], so the widget returns a single date, and the
    date block, which starts with [len(date_range)], raises [TypeError]
    instead of setting both dates to [None]: the script stops there, before
    any request. *)
Theorem C1_job_types_date_block_raises (s : session) (w : world) :
  (exists d, date_input_returns s (SingleValue {| year := 2025; month := 5; day := 1 |})
             = SingleDate d) /\
  fst (script JobTypes s w) = Raise TypeError /\
  requests_of JobTypes s w = [].
Proof.
  split_and!.
  - eexists. reflexivity.
  - reflexivity.
  - unfold requests_of, run, script, JobTypes_page. rewrite bind_api_base.
    unfold bind at 1, st_sidebar_date_input, bind at 1, show, ret. cbn.
    apply drop_all.
Qed.

(** The same block on a page whose date input starts from a pair. *)
Example Jobs_page_dates :
  map params (requests_of Jobs (quiet_session may_to_june) (cold_world dead_server))
  = [[("start_date", JStr "2025-05-01"); ("end_date", JStr "2025-06-30")];
     [("top_n", JInt 20); ("start_date", JStr "2025-05-01"); ("end_date", JStr "2025-06-30")];
     [("start_date", JStr "2025-05-01"); ("end_date", JStr "2025-06-30")];
     [("start_date", JStr "2025-05-01"); ("end_date", JStr "2025-06-30")]].
Proof. vm_compute. reflexivity. Qed.

Example Jobs_page_one_date_picked :
  map params
    (requests_of Jobs (quiet_session [ {| year := 2025; month := 5; day := 1 |} ])
       (cold_world dead_server))
  = [[]; [("top_n", JInt 20)]; []; []].
Proof. vm_compute. reflexivity. Qed.

(** * Further properties of the scripts *)

(** ** The date block and the queries *)

(** A formatted date has the shape [YYYY-MM-DD] and its three fields read
    back as the year, the month and the day. *)
Theorem strftime_round_trip (d : date) :
  valid_date d ->
  iso_date_shape (strftime d) = true /\
  digits_value (substring 0 4 (strftime d)) = year d /\
  digits_value (substring 5 2 (strftime d)) = month d /\
  digits_value (substring 8 2 (strftime d)) = day d.
Proof.
  intros Hd. split; [apply strftime_shape | now apply strftime_fields].
Qed.

Lemma strftime_round_trip_witness :
  iso_date_shape (strftime {| year := 2025; month := 5; day := 1 |}) = true /\
  digits_value (substring 0 4 (strftime {| year := 2025; month := 5; day := 1 |})) = 2025.
Proof.
  destruct (strftime_round_trip {| year := 2025; month := 5; day := 1 |})
    as (H1 & H2 & _).
  - unfold valid_date; cbn; lia.
  - split; [exact H1 | exact H2].
Defined.

(** The query comes back untouched, or with both dates. *)
Lemma with_dates_cases (start_date end_date : option string) (ps : list (string * json)) :
  with_dates start_date end_date ps = ps \/
  (exists a b,
     assoc "start_date" (with_dates start_date end_date ps) = Some a /\
     assoc "end_date" (with_dates start_date end_date ps) = Some b).
Proof.
  unfold with_dates.
  destruct (str_truthy start_date && str_truthy end_date); [right | now left].
  unfold dict_update. cbn [fold_left fst snd]. eexists _, _. split.
  - rewrite assoc_dict_set_ne by discriminate. apply assoc_dict_set_eq.
  - apply assoc_dict_set_eq.
Qed.

Lemma range_dates_short (s : session) :
  (length (picked s) < 2)%nat -> range_dates s = (None, None).
Proof.
  unfold range_dates. destruct (picked s) as [|d0 [|d1 ds]]; cbn; intros H;
    [reflexivity | reflexivity | lia].
Qed.

Lemma dates_together_with_dates (start_date end_date : option string)
    (ps : list (string * json)) (u : fstring) :
  assoc "start_date" ps = None -> assoc "end_date" ps = None ->
  dates_together (tab_request u (with_dates start_date end_date ps)).
Proof.
  intros Hs He. unfold dates_together. cbn [params tab_request].
  destruct (with_dates_cases start_date end_date ps) as [-> | (a & b & -> & ->)].
  - now rewrite Hs, He.
  - split; discriminate.
Qed.

Lemma level_of_known (region_level : string) (v : json) :
  Some (JStr (level_of region_level)) = Some v ->
  v = JStr "nuts2" \/ v = JStr "regional_unit".
Proof.
  intros H. injection H as <-. unfold level_of.
  destruct (String.eqb _ _); auto.
Qed.

(** The habits, request by request. *)
Ltac habits Hd :=
  split_and!;
  [ first [ right; split; [reflexivity | discriminate] | left; split; reflexivity ]
  | intros v Hv; cbn [params] in Hv;
    rewrite ?with_category_other in Hv by discriminate;
    rewrite ?with_dates_other in Hv by discriminate;
    cbn in Hv;
    first [ discriminate Hv
          | now apply level_of_known in Hv
          | injection Hv as <-; auto ]
  | first [ apply dates_together_with_dates; reflexivity
          | split; reflexivity ]
  | first [ intros Hshort; pose proof Hd as Hd';
            rewrite derive_dates_range_dates, (range_dates_short _ Hshort) in Hd';
            injection Hd' as <-; split; reflexivity
          | intros _; split; reflexivity ] ].

Lemma script_habits (p : page) (s : session) (w : world) :
  advance (request_habits (api_base w) s) page_element (page_entry p (api_base w))
    w (run p s w).
Proof.
  destruct p;
    unfold run, script, Home_page, Jobs_page, Occupations_page, Regions_page, Skills_page,
      Heatmaps_page, JobTypes_page, occupation_trend, skills_heatmap_params,
      quick_stats, quick_stat, check_api_connection;
    rewrite bind_api_base; generalize (api_base w) as base; intros base; apply steps_run.
  - repeat step; habits H.
  - repeat step; habits H.
  - repeat step; habits H.
  - repeat step; habits H.
  - repeat step; habits H.
  - repeat step; habits H.
  - repeat step; habits H.
Qed.

(** No request of a page carries one date without the other. *)
Theorem dates_are_sent_together (p : page) (s : session) (w : world) :
  Forall dates_together (requests_of p s w).
Proof.
  destruct (requests_of_advance _ _ _ p s w (script_habits p s w)) as [_ H].
  eapply Forall_impl; [exact H|]. intros r Hr. apply Hr.
Qed.

(** While fewer than two dates are picked, no request of the page carries
    a date: the tabs ask for all the data. *)
Theorem partial_range_sends_no_dates (p : page) (s : session) (w : world) :
  (length (picked s) < 2)%nat ->
  Forall carries_no_dates (requests_of p s w).
Proof.
  intros Hshort.
  destruct (requests_of_advance _ _ _ p s w (script_habits p s w)) as [_ H].
  eapply Forall_impl; [exact H|]. intros r Hr. now apply Hr.
Qed.

Lemma partial_range_sends_no_dates_witness :
  Forall carries_no_dates
    (requests_of Regions (quiet_session [ {| year := 2025; month := 5; day := 1 |} ])
       (cold_world steady_server)).
Proof.
  apply (partial_range_sends_no_dates Regions
           (quiet_session [ {| year := 2025; month := 5; day := 1 |} ])
           (cold_world steady_server)).
  cbn. lia.
Defined.

(** Whenever a request has a [region_level], it is [nuts2] or
    [regional_unit]. *)
Theorem region_level_is_known (p : page) (s : session) (w : world) :
  Forall sends_known_level (requests_of p s w).
Proof.
  destruct (requests_of_advance _ _ _ p s w (script_habits p s w)) as [_ H].
  eapply Forall_impl; [exact H|]. intros r Hr. apply Hr.
Qed.

(** The health check is the only request with a timeout: every other
    request waits for the backend as long as it takes. *)
Theorem only_health_check_times_out (p : page) (s : session) (w : world) :
  Forall (timeout_only_on_health (api_base w)) (requests_of p s w).
Proof.
  destruct (requests_of_advance _ _ _ p s w (script_habits p s w)) as [_ H].
  eapply Forall_impl; [exact H|]. intros r Hr. apply Hr.
Qed.

(** ** Scripts that always complete *)



(** ** One failing tab does not stop the next *)

Lemma logs_ret {A} (a : A) : logs [] (ret a).
Proof. intros w. cbn. now rewrite app_nil_r. Qed.






(** ** The monthly request of the Occupations page *)

(** The time-series tab asks for the daily series and then, only when that
    answered 200 and a non-empty table was drawn from it, for the monthly
    series of the occupation, with the very query of the daily request; the
    tab never raises. *)
Theorem occupation_trend_requests (base : string) (selected_occupation : json)
    (ps : list (string * json)) (w : world) :
  let daily := tab_request (endpoint base "/api/occupations/timeseries") ps in
  let monthly :=
    tab_request (endpoint_of base "/api/trends/monthly/occupations/" selected_occupation "")
      ps in
  fst (occupation_trend base selected_occupation ps w) = Ok tt /\
  log (snd (occupation_trend base selected_occupation ps w))
  = log w ++ daily :: (if monthly_due w daily then [monthly] else []) /\
  params monthly = params daily.
Proof.
  cbv zeta. unfold occupation_trend, monthly_due, try_except, bind, requests_get,
    st_error, show, draw, ret.
  fold (tab_request (endpoint base "/api/occupations/timeseries") ps).
  fold (tab_request
          (endpoint_of base "/api/trends/monthly/occupations/" selected_occupation "") ps).
  destruct (server w (length (log w))
              (tab_request (endpoint base "/api/occupations/timeseries") ps)) as [e|r];
    [split_and!; reflexivity|].
  destruct (status_code r =? 200); [|split_and!; reflexivity].
  cbn [andb fst snd draws with_log].
  destruct (draws w "occupations/timeseries" r) as [[|]|e]; try (split_and!; reflexivity).
  cbn [log with_log server length].
  destruct (server w _ _) as [e|r'].
  - split_and!; try reflexivity. cbn. now rewrite <- app_assoc.
  - destruct (status_code r' =? 200).
    + cbn [draws with_log]. destruct (draws w "occupations/monthly" r') as [b|e];
        (split_and!; try reflexivity; cbn; now rewrite <- app_assoc).
    + split_and!; try reflexivity. cbn. now rewrite <- app_assoc.
Qed.

(** ** The quick stats of the home page *)

Lemma quick_stat_run (u : fstring) (ps : list (string * json)) (label key : string)
    (suffix : list fpart) (w : world) :
  exists res w',
    quick_stat u ps label key suffix w = (res, w') /\
    log w' = log w ++ [tab_request u ps] /\
    server w' = server w /\
    (if quick_stat_passes key (server w (length (log w)) (tab_request u ps))
     then res = Ok tt else exists e, res = Raise e).
Proof.
  unfold quick_stat, quick_stat_passes, bind, requests_get, lift, show.
  fold (tab_request u ps).
  destruct (server w (length (log w)) (tab_request u ps)) as [e|r].
  - eexists _, _. split_and!; try reflexivity. eauto.
  - destruct (status_code r =? 200).
    + destruct (response_json r) as [data|e]; cbn [res_bind].
      * destruct (dict_get data key (JInt 0)) as [v|e]; cbn [res_bind].
        -- destruct (format_thousands v) as [shown|e].
           ++ eexists _, _. split_and!; reflexivity.
           ++ eexists _, _. split_and!; try reflexivity. eauto.
        -- eexists _, _. split_and!; try reflexivity. eauto.
      * eexists _, _. split_and!; try reflexivity. eauto.
    + eexists _, _. split_and!; reflexivity.
Qed.

Lemma quick_stats_issued (base : string) (w : world) :
  exists w',
    quick_stats base w = (Ok tt, w') /\
    log w' = log w ++ issued (server w) (length (log w))
                        (zip (quick_stats_requests base) quick_stats_keys).
Proof.
  unfold quick_stats, try_except, quick_stats_requests, quick_stats_keys.
  cbn [zip zip_with issued].
  unfold bind at 1.
  destruct (quick_stat_run (endpoint base "/api/jobs/count") [] "Total Jobs" "total_jobs" [] w)
    as (res1 & w1 & -> & L1 & S1 & P1).
  destruct (quick_stat_passes "total_jobs" _);
    [subst res1 | destruct P1 as [e ->]; eexists; split; [reflexivity | exact L1]].
  unfold bind at 1.
  destruct (quick_stat_run (endpoint base "/api/occupations/demand") [("top_n", JInt 100)]
              "Occupations Tracked" "count" [] w1) as (res2 & w2 & -> & L2 & S2 & P2).
  rewrite S1, L1, length_app, Nat.add_1_r in P2.
  destruct (quick_stat_passes "count" _);
    [subst res2
    | destruct P2 as [e ->]; eexists; split;
      [reflexivity | rewrite L2, L1, <- app_assoc; reflexivity]].
  unfold bind at 1.
  destruct (quick_stat_run (endpoint base "/api/regions/jobs")
              [("region_level", JStr "nuts2"); ("top_n", JInt 100)]
              "Regions (NUTS2)" "count" [] w2) as (res3 & w3 & -> & L3 & S3 & P3).
  rewrite S2, S1, L2, L1, !length_app, !Nat.add_1_r in P3.
  destruct (quick_stat_passes "count" _);
    [subst res3
    | destruct P3 as [e ->]; eexists; split;
      [reflexivity | rewrite L3, L2, L1, <- !app_assoc; reflexivity]].
  destruct (quick_stat_run (endpoint base "/api/skills/top") [("top_n", JInt 100)]
              "Skills Tracked" "count" [Text "+"] w3) as (res4 & w4 & -> & L4 & S4 & P4).
  exists w4. split.
  - destruct (quick_stat_passes "count" _); [subst res4 | destruct P4 as [e ->]]; reflexivity.
  - rewrite L4, L3, L2, L1, <- !app_assoc. cbn [app].
    match goal with
    | |- context [if ?b then [] else []] => destruct b
    end; reflexivity.
Qed.

(** After its two health checks the home page, when the second one passed,
    asks for the four quick stats in order and stops at the first whose
    request raises or whose 200 answer cannot be decoded and formatted; an
    answer with another status is skipped and the next stat is asked for. *)
Theorem Home_page_requests (s : session) (w : world) :
  let base := api_base w in
  let n := length (log w) in
  requests_of Home s w
  = health_check base :: health_check base ::
    (if healthy (server w (S n) (health_check base))
     then issued (server w) (S (S n)) (zip (quick_stats_requests base) quick_stats_keys)
     else []).
Proof.
  cbv zeta. unfold requests_of, run, script, Home_page.
  rewrite bind_api_base. generalize (api_base w) as base. intros base.
  rewrite bind_check_api_connection.
  set (w1 := with_log w (log w ++ [health_check base])).
  assert (Hrun : forall (e : element),
             drop (length (log w))
               (log (snd ((show e ;;; connected <- check_api_connection base ;;
                           if connected then quick_stats base else ret tt) w1)))
             = health_check base :: health_check base ::
               (if healthy (server w (S (length (log w))) (health_check base))
                then issued (server w) (S (S (length (log w))))
                       (zip (quick_stats_requests base) quick_stats_keys)
                else [])).
  { intros e. unfold bind at 1. unfold show. cbn [fst snd].
    rewrite bind_check_api_connection. cbn [log with_screen w1 with_log server].
    rewrite length_app, Nat.add_1_r.
    destruct (healthy (server w (S (length (log w))) (health_check base))).
    - match goal with
      | |- context [quick_stats base ?w2] =>
          destruct (quick_stats_issued base w2) as (w3 & -> & L3)
      end.
      cbn [snd]. rewrite L3. unfold w1. cbn [log with_log with_screen server].
      replace (length ((log w ++ [health_check base]) ++ [health_check base]))
        with (S (S (length (log w)))) by (rewrite !length_app; cbn; lia).
      rewrite <- !app_assoc, drop_app_length. reflexivity.
    - cbn [ret snd log with_log]. rewrite <- app_assoc, drop_app_length. reflexivity. }
  destruct (healthy (server w (length (log w)) (health_check base))); apply Hrun.
Qed.

(** ** The store during a run *)

Lemma ks_ret {A} (a : A) : keeps_store (ret a).
Proof. intros w. reflexivity. Qed.

Lemma ks_lift {A} (r : res A) : keeps_store (lift r).
Proof. intros w. reflexivity. Qed.

Lemma ks_show (e : element) : keeps_store (show e).
Proof. intros w. reflexivity. Qed.

Lemma ks_draw (tab : string) (r : response) : keeps_store (draw tab r).
Proof. intros w. reflexivity. Qed.

Lemma ks_requests_get (u : fstring) (ps : list (string * json)) (t : option Z) :
  keeps_store (requests_get u ps t).
Proof. intros w. unfold requests_get. destruct (server w _ _); reflexivity. Qed.

Lemma ks_bind {A B} (m : M A) (k : A -> M B) :
  keeps_store m -> (forall a, keeps_store (k a)) -> keeps_store (bind m k).
Proof.
  intros Hm Hk w. unfold bind. specialize (Hm w).
  destruct (m w) as [[a|e] w']; cbn in *; [|exact Hm].
  now rewrite Hk.
Qed.

Lemma ks_try {A} (body : M A) (handler : exn -> M A) :
  keeps_store body -> (forall e, keeps_store (handler e)) ->
  keeps_store (try_except body handler).
Proof.
  intros Hb Hh w. unfold try_except. specialize (Hb w).
  destruct (body w) as [[a|e] w']; cbn in *; [exact Hb|].
  now rewrite Hh.
Qed.

Ltac stored :=
  lazymatch goal with
  | |- keeps_store (bind _ _) => apply ks_bind; [|intros ?]
  | |- keeps_store (try_except _ _) => apply ks_try; [|intros ?]
  | |- keeps_store (ret _) => apply ks_ret
  | |- keeps_store (lift _) => apply ks_lift
  | |- keeps_store (show _) => apply ks_show
  | |- keeps_store (st_error _) => apply ks_show
  | |- keeps_store (draw _ _) => apply ks_draw
  | |- keeps_store (requests_get _ _ _) => apply ks_requests_get
  | |- keeps_store (if ?b then _ else _) => destruct b
  end.

Lemma run_after {A B} (m : M A) (k : A -> M B) (w w' : world) (a : A) :
  m w = (Ok a, w') -> snd (bind m k w) = snd (k a w').
Proof. intros H. unfold bind. now rewrite H. Qed.

(** The part of the Occupations script after the lookup and the choice
    writes nothing to the store, and asks for no occupations list. *)
Ltac after_the_lookup :=
  unfold st_sidebar_date_input, st_radio, st_slider, fetch_and_draw, occupation_trend;
  repeat stored.

(** The Occupations page stores whatever its lookup returned, failures
    included, for an hour: when the store has no live entry for the helper,
    the run leaves the store with one more entry, the answer made of the
    lookup request, expiring 3600 seconds from now. *)
Theorem Occupations_page_stores_lookup (s : session) (w : world) :
  let key := (function_key w Occupations "get_occupations", @nil string) in
  (cache w !! key = None \/
   exists entry, cache w !! key = Some entry /\ expires entry <= clock w) ->
  cache (run Occupations s w)
  = <[key := {| cached_value :=
                  labels_result "esco_label"
                    (server w (length (log w)) (occupations_lookup (api_base w)));
                expires := clock w + 3600 |}]> (cache w).
Proof.
  cbv zeta. intros Hdead. unfold run, script, Occupations_page.
  rewrite bind_api_base. generalize (api_base w) as base. intros base.
  unfold get_occupations.
  rewrite (run_after _ _ _ _ _
             (cache_data_refresh 3600 Occupations "get_occupations" [] _ w _ _ Hdead
                (get_occupations_body_run base w))).
  rewrite (run_after _ _ _ _ _ (select_or_type_run _ _ _ _ _ _ _ _)).
  match goal with
  | |- cache (snd (?m ?w2)) = _ =>
      assert (H : keeps_store m); [after_the_lookup | rewrite (H w2)]
  end.
  reflexivity.
Qed.

Lemma Occupations_page_stores_lookup_witness :
  cache (run Occupations (quiet_session may_to_june) (cold_world dead_server))
  = <[("get_occupations", @nil string) :=
        {| cached_value := Some []; expires := 3600 |}]> ∅.
Proof.
  apply (Occupations_page_stores_lookup (quiet_session may_to_june) (cold_world dead_server)).
  left. reflexivity.
Defined.

(** While the store has a live entry for the helper, the Occupations page
    asks the backend for no occupations list: the first thing it shows is
    the selectbox over the stored list, or the text input when the stored
    answer is empty or [None]. *)
Theorem Occupations_page_serves_stored_list (s : session) (w : world) (entry : cache_entry) :
  cache w !! (function_key w Occupations "get_occupations", []) = Some entry ->
  clock w < expires entry ->
  Forall (fun r => url r <> endpoint (api_base w) "/api/occupations/demand")
    (requests_of Occupations s w) /\
  exists rest,
    screen (run Occupations s w)
    = screen w ++
      (if lookup_truthy (cached_value entry)
       then Selectbox true "Select Occupation" (options_of (cached_value entry))
       else TextInput true "Enter Occupation" "Software Developer") :: rest.
Proof.
  intros Hk Hlive.
  set (first := if lookup_truthy (cached_value entry)
                then Selectbox true "Select Occupation" (options_of (cached_value entry))
                else TextInput true "Enter Occupation" "Software Developer").
  assert (Hadv : advance
                   (fun r => url r <> endpoint (api_base w) "/api/occupations/demand")
                   (fun _ => True) (page_entry Occupations (api_base w))
                   (with_screen w (screen w ++ [first])) (run Occupations s w)).
  { unfold run, script, Occupations_page, occupation_trend.
    rewrite bind_api_base. generalize (api_base w) as base. intros base.
    unfold get_occupations.
    rewrite (run_after _ _ _ _ _
               (cache_data_hit 3600 Occupations "get_occupations" [] _ w entry Hk Hlive)).
    rewrite (run_after _ _ _ _ _ (select_or_type_run _ _ _ _ _ _ _ _)).
    apply (steps_run
             (advance (fun r => url r <> endpoint base "/api/occupations/demand")
                (fun _ => True) (page_entry Occupations base))).
    repeat step; cbn; intros Heq; discriminate Heq. }
  split.
  - destruct Hadv as [_ (l & Hl & HP) _ _ _]. cbn [log with_screen] in Hl.
    unfold requests_of. rewrite Hl, drop_app_length. exact HP.
  - destruct Hadv as [_ _ (l & Hl & _) _ _]. cbn [screen with_screen] in Hl.
    exists l. rewrite Hl, <- app_assoc. reflexivity.
Qed.

Lemma Occupations_page_serves_stored_list_witness :
  exists rest,
    screen (run Occupations (quiet_session may_to_june)
              (arrive (fun _ => None) (fun _ name => name)
                 (visit_of Occupations (quiet_session may_to_june) 1800)
                 (<[("get_occupations", @nil string) :=
                      {| cached_value := Some [JStr "Nurse"]; expires := 3600 |}]> ∅)))
    = [] ++ Selectbox true "Select Occupation" [JStr "Nurse"] :: rest.
Proof.
  destruct (Occupations_page_serves_stored_list (quiet_session may_to_june)
              (arrive (fun _ => None) (fun _ name => name)
                 (visit_of Occupations (quiet_session may_to_june) 1800)
                 (<[("get_occupations", @nil string) :=
                      {| cached_value := Some [JStr "Nurse"]; expires := 3600 |}]> ∅))
              {| cached_value := Some [JStr "Nurse"]; expires := 3600 |})
    as [_ H].
  - vm_compute. reflexivity.
  - cbn. lia.
  - exact H.
Defined.

(** A failed lookup sticks: after a run whose lookup came back empty or
    [None] (backend down, refused, unreadable), every visit of the
    Occupations page within the hour shows the text input and asks for no
    occupations list, whatever the backend answers by then. *)
Theorem failed_lookup_sticks_for_an_hour (s : session) (w : world) (v : visit) :
  (cache w !! (function_key w Occupations "get_occupations", []) = None \/
   exists entry,
     cache w !! (function_key w Occupations "get_occupations", []) = Some entry /\
     expires entry <= clock w) ->
  lookup_truthy
    (labels_result "esco_label"
       (server w (length (log w)) (occupations_lookup (api_base w)))) = false ->
  visit_clock v < clock w + 3600 ->
  Forall (fun r => url r <> endpoint (env_base (environ w)) "/api/occupations/demand")
    (requests_of Occupations (visit_session v)
       (arrive (environ w) (function_key w) v (cache (run Occupations s w)))) /\
  exists rest,
    screen (run Occupations (visit_session v)
              (arrive (environ w) (function_key w) v (cache (run Occupations s w))))
    = TextInput true "Enter Occupation" "Software Developer" :: rest.
Proof.
  intros Hdead Hfalsy Hclock.
  pose proof (Occupations_page_serves_stored_list (visit_session v)
                (arrive (environ w) (function_key w) v (cache (run Occupations s w)))
                {| cached_value :=
                     labels_result "esco_label"
                       (server w (length (log w)) (occupations_lookup (api_base w)));
                   expires := clock w + 3600 |}) as H.
  cbn [cached_value expires] in H. rewrite Hfalsy in H. apply H; [|exact Hclock].
  cbn [cache arrive function_key].
  rewrite (Occupations_page_stores_lookup s w Hdead). apply lookup_insert_eq.
Qed.

Lemma failed_lookup_sticks_for_an_hour_witness :
  exists rest,
    screen (run Occupations (visit_session (visit_of Occupations (quiet_session may_to_june) 3599))
              (arrive (environ (cold_world dead_server))
                 (function_key (cold_world dead_server))
                 (visit_of Occupations (quiet_session may_to_june) 3599)
                 (cache (run Occupations (quiet_session may_to_june)
                           (cold_world dead_server)))))
    = TextInput true "Enter Occupation" "Software Developer" :: rest.
Proof.
  destruct (failed_lookup_sticks_for_an_hour
              (quiet_session may_to_june) (cold_world dead_server)
              (visit_of Occupations (quiet_session may_to_june) 3599))
    as [_ H].
  - left. vm_compute. reflexivity.
  - vm_compute. reflexivity.
  - cbn. lia.
  - exact H.
Defined.

(** ** Reading the labels *)

Lemma map_res_Forall2 {A B} (f : A -> res B) (l : list A) (out : list B) :
  map_res f l = Ok out <-> Forall2 (fun x y => f x = Ok y) l out.
Proof.
  revert out. induction l as [|x l IH]; intros out; cbn.
  - split.
    + intros H. injection H as <-. constructor.
    + intros H. inversion H. reflexivity.
  - destruct (f x) as [y|e] eqn:Hx; cbn.
    + destruct (map_res f l) as [ys|e] eqn:Hl; cbn.
      * split.
        -- intros H. injection H as <-. constructor; [exact Hx | now apply IH].
        -- intros H. inversion H as [|? y' ? ys' Hy Hys]; subst.
           apply IH in Hys. congruence.
      * split; [discriminate|].
        intros H. inversion H as [|? y' ? ys' Hy Hys]; subst.
        apply IH in Hys. discriminate.
    + split; [discriminate|].
      intros H. inversion H as [|? y' ? ys' Hy Hys]; subst. congruence.
Qed.

Lemma labels_result_rows (key : string) (r : response)
    (items : list (string * json)) (rows : list json) :
  status_code r = 200 ->
  body r = Some (JObj items) ->
  assoc "data" items = Some (JList rows) ->
  (forall labels,
     Forall2 (fun row label => getitem row key = Ok label) rows labels ->
     labels_result key (Responds r) = Some labels) /\
  (forall row e,
     In row rows -> getitem row key = Raise e ->
     labels_result key (Responds r) = Some []).
Proof.
  intros Hs Hb Hd.
  assert (Hl : labels_result key (Responds r)
               = match map_res (fun item => getitem item key) rows with
                 | Ok labels => Some labels
                 | Raise _ => Some []
                 end).
  { unfold labels_result, response_json, labels_of. rewrite Hs, Hb. cbn.
    rewrite Hd. reflexivity. }
  split.
  - intros labels H. apply map_res_Forall2 in H. now rewrite Hl, H.
  - intros row e Hin Hrow. rewrite Hl.
    destruct (map_res (fun item => getitem item key) rows) as [labels|e'] eqn:Hm;
      [|reflexivity].
    apply map_res_Forall2 in Hm. exfalso.
    apply list_elem_of_In, list_elem_of_lookup in Hin. destruct Hin as [i Hi].
    destruct (Forall2_lookup_l _ _ _ _ _ Hm Hi) as (y & _ & Hy).
    congruence.
Qed.

(** When the backend answers the occupations lookup with a 200 whose body
    is a dict with a list under ["data"], [get_occupations] returns the
    [esco_label] of the rows, in order, if every row is a dict that has
    one; one row without it and the helper returns the empty list, not the
    labels of the other rows. *)
Theorem labels_need_every_row (base : string) (w : world) (r : response)
    (items : list (string * json)) (rows : list json) :
  server w (length (log w)) (occupations_lookup base) = Responds r ->
  status_code r = 200 ->
  body r = Some (JObj items) ->
  assoc "data" items = Some (JList rows) ->
  (forall labels,
     Forall2 (fun row label => getitem row "esco_label" = Ok label) rows labels ->
     fst (get_occupations_body base w) = Ok (Some labels)) /\
  (forall row e,
     In row rows -> getitem row "esco_label" = Raise e ->
     fst (get_occupations_body base w) = Ok (Some [])).
Proof.
  intros Hsrv Hs Hb Hd. rewrite get_occupations_body_run, Hsrv. cbn [fst].
  destruct (labels_result_rows "esco_label" r items rows Hs Hb Hd) as [H1 H2].
  split.
  - intros labels H. now rewrite (H1 labels H).
  - intros row e Hin Hrow. now rewrite (H2 row e Hin Hrow).
Qed.

Lemma labels_need_every_row_witness :
  fst (get_occupations_body "http://localhost:8000"
         (cold_world (fun _ _ =>
            Responds {| status_code := 200;
                        body := Some (JObj [("data",
                                  JList [JObj [("esco_label", JStr "Nurse")];
                                         JObj [("label", JStr "Cook")]])]) |})))
  = Ok (Some []).
Proof.
  destruct (labels_need_every_row "http://localhost:8000"
              (cold_world (fun _ _ =>
                 Responds {| status_code := 200;
                             body := Some (JObj [("data",
                                       JList [JObj [("esco_label", JStr "Nurse")];
                                              JObj [("label", JStr "Cook")]])]) |}))
              {| status_code := 200;
                 body := Some (JObj [("data",
                           JList [JObj [("esco_label", JStr "Nurse")];
                                  JObj [("label", JStr "Cook")]])]) |}
              [("data", JList [JObj [("esco_label", JStr "Nurse")];
                               JObj [("label", JStr "Cook")]])]
              [JObj [("esco_label", JStr "Nurse")]; JObj [("label", JStr "Cook")]]
              eq_refl eq_refl eq_refl eq_refl) as [_ H].
  apply (H (JObj [("label", JStr "Cook")]) KeyError); [cbn; auto | reflexivity].
Defined.

(** ** Shapes the heatmaps refuse *)

Lemma DataFrame_shapes (matrix : list (list Q)) (idx labels : list string)
    (rows cols : nat) :
  matrix <> [] -> cols <> 0%nat -> rectangular matrix rows cols ->
  DataFrame matrix idx labels
  = if negb (cols =? length labels)%nat then Raise ValueError
    else let? fitted := fit_rows matrix cols (length idx) in
         Ok {| index := idx; columns := labels; values := fitted |}.
Proof.
  intros Hne Hc Hrect.
  pose proof (rectangular_width matrix rows cols Hne Hrect) as Hw.
  unfold DataFrame. destruct matrix as [|r m]; [contradiction|].
  cbv zeta. rewrite Hw.
  destruct (negb (cols =? length labels)%nat); [reflexivity|].
  destruct (Nat.eqb_spec cols 0); [contradiction | reflexivity].
Qed.

(** For a matrix of [rows] rows of [cols] cells each, the Occupations x
    Regions tab draws its heatmap, with the matrix as its cells, when the
    response names [rows] occupations and [cols] regions, no region twice.
    With another number of regions, or, for a matrix of two rows or more,
    another number of occupations, building the frame raises [ValueError];
    with a region that occurs twice drawing raises; either way the tab's
    handler reports the error instead of a figure.  A matrix of a single
    row is repeated for every occupation the response names, one at
    least. *)
Theorem occupations_regions_heatmap_shapes (matrix : list (list Q))
    (occupations regions : list string) (rows cols : nat) :
  matrix <> [] -> cols <> 0%nat -> rectangular matrix rows cols ->
  let data := {| or_matrix := Some matrix; or_occupations := Some occupations;
                 or_regions := Some regions |} in
  (length regions <> cols -> occupations_regions_heatmap data = Raise ValueError) /\
  (rows <> 1%nat -> length occupations <> rows ->
   occupations_regions_heatmap data = Raise ValueError) /\
  (length regions = cols -> rows = 1%nat \/ length occupations = rows ->
   distinct regions = false ->
   occupations_regions_heatmap data = Raise DuplicateError) /\
  (length regions = cols -> length occupations = rows -> distinct regions = true ->
   exists h, occupations_regions_heatmap data = Ok (Some h) /\
             z h = map (map Finite) matrix) /\
  (length regions = cols -> rows = 1%nat -> occupations <> [] ->
   distinct regions = true ->
   exists h, occupations_regions_heatmap data = Ok (Some h) /\
             z h = replicate (length occupations) (map Finite (hd [] matrix))).
Proof.
  intros Hne Hc Hrect. cbv zeta.
  unfold occupations_regions_heatmap. cbn [or_matrix or_occupations or_regions].
  rewrite (DataFrame_shapes matrix occupations regions rows cols Hne Hc Hrect).
  assert (Hone : rows = 1%nat ->
            fit_rows matrix cols (length occupations)
            = Ok (replicate (length occupations) (map Finite (hd [] matrix)))).
  { intros ->. destruct Hrect as [Hrows Hall].
    destruct matrix as [|r [|r' m]]; try discriminate Hrows.
    apply Forall_inv in Hall. subst cols. cbn [fit_rows hd]. now rewrite pad_row_full. }
  assert (Hmany : rows <> 1%nat ->
            fit_rows matrix cols (length occupations)
            = if negb (rows =? length occupations)%nat then Raise ValueError
              else Ok (map (map Finite) matrix)).
  { intros Hrows1. destruct Hrect as [Hrows Hall].
    destruct matrix as [|r [|r' m]]; [contradiction | cbn in Hrows; congruence |].
    rewrite fit_rows_many, Hrows.
    destruct (negb (rows =? length occupations)%nat); [reflexivity|].
    now rewrite (pad_rows_full _ cols Hall). }
  split_and!.
  - intros Hr. destruct (Nat.eqb_spec cols (length regions)); [congruence | reflexivity].
  - intros Hrows1 Ho.
    destruct (negb (cols =? length regions)%nat); [reflexivity|].
    rewrite (Hmany Hrows1).
    destruct (Nat.eqb_spec rows (length occupations)); [congruence | reflexivity].
  - intros Hr Hrows Hd. subst cols. rewrite Nat.eqb_refl. cbn [negb].
    destruct (Nat.eq_dec rows 1%nat) as [E|E].
    + rewrite (Hone E). cbn [res_bind]. unfold px_imshow. cbn [columns]. now rewrite Hd.
    + destruct Hrows as [Hrows|Hrows]; [contradiction|].
      rewrite (Hmany E), <- Hrows, Nat.eqb_refl. cbn [negb res_bind].
      unfold px_imshow. cbn [columns]. now rewrite Hd.
  - intros Hr Ho Hd. subst cols. rewrite Nat.eqb_refl. cbn [negb].
    assert (Hfit : fit_rows matrix (length regions) (length occupations)
                   = Ok (map (map Finite) matrix)).
    { rewrite Ho. now apply fit_rows_rectangular. }
    rewrite Hfit. cbn [res_bind]. unfold px_imshow. cbn [columns values]. rewrite Hd.
    cbn [res_bind]. eexists; split; reflexivity.
  - intros Hr Hrows _ Hd. subst cols. rewrite Nat.eqb_refl. cbn [negb].
    rewrite (Hone Hrows). cbn [res_bind]. unfold px_imshow. cbn [columns values]. rewrite Hd.
    cbn [res_bind]. eexists; split; reflexivity.
Qed.

Lemma occupations_regions_heatmap_shapes_witness :
  occupations_regions_heatmap
    {| or_matrix := Some [[12; 3]; [7; 9]]%Q; or_occupations := Some ["Nurse"];
       or_regions := Some ["Attiki"; "Kriti"] |} = Raise ValueError /\
  (exists h,
     occupations_regions_heatmap
       {| or_matrix := Some [[12; 3]]%Q; or_occupations := Some ["Nurse"; "Cook"];
          or_regions := Some ["Attiki"; "Kriti"] |} = Ok (Some h) /\
     z h = [[Finite 12; Finite 3]; [Finite 12; Finite 3]]).
Proof.
  split.
  - destruct (occupations_regions_heatmap_shapes [[12; 3]; [7; 9]]%Q
                ["Nurse"] ["Attiki"; "Kriti"] 2 2) as (_ & H & _).
    + discriminate.
    + discriminate.
    + split; [reflexivity | repeat constructor].
    + apply H; discriminate.
  - destruct (occupations_regions_heatmap_shapes [[12; 3]]%Q
                ["Nurse"; "Cook"] ["Attiki"; "Kriti"] 1 2) as (_ & _ & _ & _ & H).
    + discriminate.
    + discriminate.
    + split; [reflexivity | repeat constructor].
    + apply H; [reflexivity | reflexivity | discriminate | reflexivity].
Defined.

(** A [normalized_matrix] that is there but empty is not replaced by the
    [matrix]: the Skills x Regions tab then draws nothing (it warns that no
    data is available), and so it does when the skills or the regions list
    is empty; none of these raises. *)
Theorem skills_regions_heatmap_empty (normalize : bool) (occupation : json)
    (data : skills_regions) :
  sr_normalized_matrix data = Some [] \/ sr_skills data = Some [] \/ sr_regions data = Some [] ->
  skills_regions_heatmap normalize occupation data = Ok None.
Proof.
  unfold skills_regions_heatmap, matrix_data_of.
  intros [H | [H | H]]; rewrite H.
  - destruct (sr_skills data), (sr_regions data); reflexivity.
  - destruct (sr_regions data) as [regions|]; [|reflexivity].
    cbn. now rewrite andb_false_r.
  - destruct (sr_skills data) as [skills|]; [|reflexivity].
    cbn. now rewrite andb_false_r.
Qed.

Lemma skills_regions_heatmap_empty_witness :
  skills_regions_heatmap true (JStr "Nurse")
    {| sr_skills := Some ["care"]; sr_regions := Some ["Attiki"];
       sr_normalized_matrix := Some []; sr_matrix := Some [[3]]%Q |} = Ok None.
Proof.
  apply skills_regions_heatmap_empty. left. reflexivity.
Defined.

(** ** Growth after an empty month *)



(** ** One selection for the whole page *)

(** On the Occupations and the Regions page every tab asks about the same
    thing.  The helper's answer, live in the store, makes the one widget of
    the selection; the value that widget holds, the option picked from that
    list or the text typed when the list is empty or [None], is what every
    request sends as [esco_label] or [region] and what fills the path of
    the requests that have the selection in their URL. *)
Theorem one_selection_per_run (p : page) (s : session) (w : world) :
  p = Occupations \/ p = Regions ->
  exists entry,
    cache (run p s w) !! selection_key p s (function_key w) = Some entry /\
    clock w < expires entry /\
    (cache w !! selection_key p s (function_key w) = Some entry \/
     page_entry p (api_base w) (server w) (clock w) (function_key w)
       (selection_key p s (function_key w)) entry) /\
    List.filter (selection_kind p) (shown_since w (run p s w))
    = [selection_widget p (cached_value entry)] /\
    Forall (asks_about p (api_base w) (selected_from p s (cached_value entry)))
      (requests_of p s w).
Proof.
  intros [-> | ->].
  - destruct (Occupations_tied s w) as (entry & Hc & Hlive & Hadv & Hshown).
    exists entry. split_and!; try assumption.
    + exact (adv_cache _ _ _ _ _ Hadv _ _ Hc).
    + now apply requests_of_advance in Hadv.
  - destruct (Regions_tied s w) as (entry & Hc & Hlive & Hadv & Hshown).
    exists entry. split_and!; try assumption.
    + exact (adv_cache _ _ _ _ _ Hadv _ _ Hc).
    + now apply requests_of_advance in Hadv.
Qed.

Lemma one_selection_per_run_witness :
  List.filter region_widget
    (shown_since (cold_world steady_server)
       (run Regions (second_choice may_to_june) (cold_world steady_server)))
  = [Selectbox true "Select Region" [JStr "Attiki"; JStr "Kriti"]] /\
  Forall (asks_about Regions "http://localhost:8000" (JStr "Kriti"))
    (requests_of Regions (second_choice may_to_june) (cold_world steady_server)).
Proof.
  destruct (one_selection_per_run Regions (second_choice may_to_june)
              (cold_world steady_server))
    as (entry & _ & _ & Hfrom & Hshown & Hreq).
  - right. reflexivity.
  - destruct Hfrom as [Hold | (_ & [(Hin & _) | (_ & level & _ & _ & n & Hv)])].
    + discriminate Hold.
    + cbn in Hin. intuition discriminate.
    + rewrite Hv in Hshown, Hreq. split; [exact Hshown | exact Hreq].
Defined.
